(** * Bus reservation application: a model of [app.py] and its properties

    The Flask application keeps two SQL tables ([reservations], [admins]) and
    a per-client session.  Its view functions are embedded here as
    computations in a small state-and-exception monad over that world; the
    Python built-ins they rely on (list indexing, [int], [str.strip],
    [random.choices], string formatting) are modelled first. *)

From Stdlib Require Import ZArith Lia Ascii String.
From stdpp Require Import base option list strings gmap.

Local Open Scope string_scope.
Local Open Scope nat_scope.

(** ** Python exceptions and the pure outcome monad *)

Inductive PyExc :=
| IndexError
| ValueError
| BadRequestKeyError (key : string)   (* werkzeug: a [KeyError] and a 400 *)
| IntegrityError                      (* sqlalchemy.exc, raised by commit *)
| OverflowError.                      (* sqlite3: an integer beyond 64 bits *)

Global Instance PyExc_eq_dec : EqDecision PyExc.
Proof. solve_decision. Defined.

Inductive Outcome (A : Type) :=
| Return (a : A)
| Raise (e : PyExc).
Arguments Return {A} a.
Arguments Raise {A} e.

Global Instance Outcome_ret : MRet Outcome := λ A, Return.
Global Instance Outcome_bind : MBind Outcome := λ A B f m,
  match m with
  | Return a => f a
  | Raise e => Raise e
  end.
Global Instance Outcome_fmap : FMap Outcome := λ A B f m,
  match m with
  | Return a => Return (f a)
  | Raise e => Raise e
  end.

(** [except (KeyError, ValueError)]: [BadRequestKeyError] derives from
    [KeyError]. *)
Definition is_KeyError_or_ValueError (e : PyExc) : bool :=
  match e with
  | BadRequestKeyError _ | ValueError => true
  | IndexError | IntegrityError | OverflowError => false
  end.

(** ** Python built-ins *)

Module Py.

(** [l[i]] on a list: a negative index counts from the end, anything
    outside [-len, len) raises [IndexError]. *)
Definition getitem {A} (l : list A) (i : Z) : Outcome A :=
  let n := Z.of_nat (length l) in
  let j := if (i <? 0)%Z then (i + n)%Z else i in
  if ((0 <=? j)%Z && (j <? n)%Z)%bool
  then match l !! Z.to_nat j with
       | Some x => Return x
       | None => Raise IndexError
       end
  else Raise IndexError.

(** [int(s)] and [s.strip()] rest on the interpreter's Unicode tables and
    on its settings, so the routes take them from a runtime: [int_value s]
    is the integer [int(s)] returns, [None] when it raises; the properties
    of the routes are proved for every runtime.  [cpython] below is the
    runtime of CPython 3.11 (Unicode 14.0, default digit limit). *)
Class Runtime := {
  int_value : string → option Z;
  strip : string → string;
}.

(** [int(s)] for a string argument: the only exception is [ValueError]. *)
Definition int `{Runtime} (s : string) : Outcome Z :=
  match int_value s with
  | Some z => Return z
  | None => Raise ValueError
  end.

(** A Python string is held as its UTF-8 text, the way the form decoder
    receives it.  [decode] splits it into code points, each with its
    bytes; a byte that starts no UTF-8 sequence stands for U+FFFD, which
    is what the decoder of the form puts in its place. *)
Definition byte (a : ascii) : N := N_of_ascii a.

Definition continuation (a : ascii) : bool :=
  ((128 <=? byte a) && (byte a <? 192))%N.

Definition tail_bits (a : ascii) : N := (byte a - 128)%N.

Fixpoint decode (l : list ascii) : list (N * list ascii) :=
  match l with
  | [] => []
  | b0 :: l1 =>
      let n0 := byte b0 in
      let bad := (65533%N, [b0]) in
      if (n0 <? 128)%N then (n0, [b0]) :: decode l1
      else
        match l1 with
        | [] => [bad]
        | b1 :: l2 =>
            if ((192 <=? n0) && (n0 <? 224))%N && continuation b1
            then (((n0 - 192) * 64 + tail_bits b1)%N, [b0; b1]) :: decode l2
            else
              match l2 with
              | [] => bad :: decode l1
              | b2 :: l3 =>
                  if ((224 <=? n0) && (n0 <? 240))%N
                     && continuation b1 && continuation b2
                  then ((((n0 - 224) * 64 + tail_bits b1) * 64
                         + tail_bits b2)%N, [b0; b1; b2]) :: decode l3
                  else
                    match l3 with
                    | [] => bad :: decode l1
                    | b3 :: l4 =>
                        if ((240 <=? n0) && (n0 <? 248))%N
                           && continuation b1 && continuation b2
                           && continuation b3
                        then (((((n0 - 240) * 64 + tail_bits b1) * 64
                                + tail_bits b2) * 64 + tail_bits b3)%N,
                              [b0; b1; b2; b3]) :: decode l4
                        else bad :: decode l1
                    end
              end
        end
  end.

(** [str.isspace] on one code point: the whitespace [str.strip] removes. *)
Definition isspace (cp : N) : bool :=
  ((9 <=? cp) && (cp <=? 13) || (28 <=? cp) && (cp <=? 32)
   || (cp =? 133) || (cp =? 160) || (cp =? 5760)
   || (8192 <=? cp) && (cp <=? 8202)
   || (cp =? 8232) || (cp =? 8233) || (cp =? 8239) || (cp =? 8287)
   || (cp =? 12288))%N.

(** The whitespace the integer parser skips once the text is ASCII: TAB to
    CR and the space, without FS..US. *)
Definition c_isspace (c : N) : bool :=
  ((9 <=? c) && (c <=? 13) || (c =? 32))%N.

(** The code points of the digit zero of every decimal script; the nine
    digits that follow each of them are 1 to 9. *)
Definition decimal_zeros : list N :=
  [48; 1632; 1776; 1984; 2406; 2534; 2662; 2790;
   2918; 3046; 3174; 3302; 3430; 3558; 3664; 3792;
   3872; 4160; 4240; 6112; 6160; 6470; 6608; 6784;
   6800; 6992; 7088; 7232; 7248; 42528; 43216; 43264;
   43472; 43504; 43600; 44016; 65296; 66720; 68912; 69734;
   69872; 69942; 70096; 70384; 70736; 70864; 71248; 71360;
   71472; 71904; 72016; 72784; 73040; 73120; 92768; 92864;
   93008; 120782; 120792; 120802; 120812; 120822; 123200; 123632;
   125264; 130032]%N.

Definition decimal (cp : N) : option N :=
  (λ zero, cp - zero)%N
    <$> List.find (λ zero, (zero <=? cp) && (cp <? zero + 10))%N decimal_zeros.

Fixpoint lstrip (l : list (N * list ascii)) : list (N * list ascii) :=
  match l with
  | u :: l' => if isspace u.1 then lstrip l' else l
  | [] => []
  end.

Definition cpython_strip (s : string) : string :=
  let units := decode (list_ascii_of_string s) in
  string_of_list_ascii
    (List.concat (snd <$> rev (lstrip (rev (lstrip units))))).

(** What [int] does to a string before parsing: ASCII stays, any other
    whitespace becomes a space, any other decimal digit its ASCII digit;
    nothing else is accepted. *)
Fixpoint to_ascii (l : list N) : option (list N) :=
  match l with
  | [] => Some []
  | cp :: l' =>
      c ← (if (cp <? 127)%N then Some cp
           else if isspace cp then Some 32%N
           else (λ d, 48 + d)%N <$> decimal cp);
      cs ← to_ascii l';
      Some (c :: cs)
  end.

Fixpoint skip_space (l : list N) : list N :=
  match l with
  | c :: l' => if c_isspace c then skip_space l' else l
  | [] => []
  end.

Definition isdigit (c : N) : bool := ((48 <=? c) && (c <=? 57))%N.

(** Decimal digits with single underscores allowed between two digits:
    the value, the number of digits and what follows them. *)
Fixpoint parse_digits (l : list N) (acc : Z) (count : nat)
    (after_digit : bool) : option (Z * nat * list N) :=
  match l with
  | c :: l' =>
      if isdigit c
      then parse_digits l' (10 * acc + Z.of_N (c - 48))%Z (S count) true
      else if ((c =? 95)%N && after_digit)%bool
           then parse_digits l' acc count false
           else if after_digit then Some (acc, count, l) else None
  | [] => if after_digit then Some (acc, count, []) else None
  end.

(** [sys.get_int_max_str_digits()] as the interpreter starts. *)
Definition max_str_digits : nat := 4300.

(** [int(s)], base 10: whitespace around the number is skipped, one sign
    is accepted, the digits may be more than [max_str_digits] only at the
    price of a [ValueError]. *)
Definition cpython_int (s : string) : option Z :=
  l ← to_ascii ((decode (list_ascii_of_string s)).*1);
  let l := skip_space l in
  let '(neg, body) :=
    match l with
    | c :: l' =>
        if (c =? 45)%N then (true, l')
        else if (c =? 43)%N then (false, l')
        else (false, l)
    | [] => (false, l)
    end in
  '(z, count, rest) ← parse_digits body 0 0 false;
  if (forallb c_isspace rest && (count <=? max_str_digits)%nat)%bool
  then Some (if neg then (- z)%Z else z)
  else None.

Definition cpython : Runtime :=
  {| int_value := cpython_int; strip := cpython_strip |}.

Definition digit_char (d : N) : ascii := ascii_of_N (48 + d).

Fixpoint dec_digits (fuel : nat) (n : N) (acc : string) : string :=
  match fuel with
  | O => acc
  | S fuel' =>
      let acc' := String (digit_char (n mod 10)) acc in
      if (n / 10 =? 0)%N then acc' else dec_digits fuel' (n / 10)%N acc'
  end.

(** [str(z)] for an integer (of fewer digits than the limit above). *)
Definition str (z : Z) : string :=
  let n := Z.abs_N z in
  let ds := dec_digits (S (N.size_nat n)) n EmptyString in
  if (z <? 0)%Z then "-" +:+ ds else ds.

Fixpoint spaces (n : nat) : string :=
  match n with
  | O => EmptyString
  | S n' => String " " (spaces n')
  end.

(** [f"{z:w}"]: an integer is right-aligned in a field of width [w]. *)
Definition format_width (w : nat) (z : Z) : string :=
  let s := str z in spaces (w - String.length s) +:+ s.

(** [f"{z:.2f}"] for an integer [z] (exact below 2^53). *)
Definition format_2f (z : Z) : string := str z +:+ ".00".

(** [sep.join(parts)] *)
Fixpoint join (sep : string) (parts : list string) : string :=
  match parts with
  | [] => EmptyString
  | [p] => p
  | p :: ps => p +:+ sep +:+ join sep ps
  end.

(** [random.choices(population, k=k)]: each of the [k] picks is
    [population[floor(random() * n)]]; [rng i] stands for the i-th
    draw, reduced to an index below [n]. *)
Definition random_choices {A} (rng : nat → nat) (population : list A)
    (k : nat) : list A :=
  omap (λ i, population !! (rng i `mod` length population)) (seq 0 k).

Definition ascii_uppercase : string := "ABCDEFGHIJKLMNOPQRSTUVWXYZ".
Definition digits : string := "0123456789".

End Py.

(** ** Models (the two tables of [schema.sql]) *)

Record Reservation := mkReservation {
  id : Z;
  passengerName : string;
  seatRow : Z;
  seatColumn : Z;
  eTicketNumber : string;
  created : Z;
}.

Record Admin := mkAdmin {
  username : string;
  password : string;
}.

Global Instance Reservation_eq_dec : EqDecision Reservation.
Proof. solve_decision. Defined.
Global Instance Admin_eq_dec : EqDecision Admin.
Proof. solve_decision. Defined.

(** ** Helpers *)

Definition get_cost_matrix : list (list Z) :=
  replicate 12 [100; 75; 50; 100]%Z.

Definition generate_reservation_code (rng : nat → nat) (length : nat)
  : string :=
  string_of_list_ascii
    (Py.random_choices rng
       (list_ascii_of_string (Py.ascii_uppercase +:+ Py.digits)) length).

Definition calculate_price_for_seat (row col : Z) : Outcome Z :=
  let matrix := get_cost_matrix in
  matrix_row ← Py.getitem matrix (row - 1);
  Py.getitem matrix_row (col - 1).

(** The [for] loop of [calculate_total_sales], with its accumulator. *)
Fixpoint total_sales_loop (reservations : list Reservation) (total : Z)
  : Outcome Z :=
  match reservations with
  | [] => Return total
  | r :: rest =>
      p ← calculate_price_for_seat (seatRow r) (seatColumn r);
      total_sales_loop rest (total + p)
  end.

Definition calculate_total_sales (reservations : list Reservation)
  : Outcome Z :=
  total_sales_loop reservations 0.

Definition open_seats : list (list string) := replicate 12 (replicate 4 "O").

(** One iteration of the marking loop of [build_seating_chart]. *)
Definition mark_seat (seats : list (list string)) (r : Reservation)
  : list (list string) :=
  let row_idx := (seatRow r - 1)%Z in
  let col_idx := (seatColumn r - 1)%Z in
  if ((0 <=? row_idx)%Z && (row_idx <? 12)%Z
      && (0 <=? col_idx)%Z && (col_idx <? 4)%Z)%bool
  then alter (λ row, <[Z.to_nat col_idx := "X"]> row) (Z.to_nat row_idx) seats
  else seats.

Definition seat_grid (reservations : list Reservation) : list (list string) :=
  foldl mark_seat open_seats reservations.

Definition newline : string := String (ascii_of_nat 10) EmptyString.

Definition chart_line (i : nat) (row : list string) : string :=
  "Row " +:+ Py.format_width 2 (Z.of_nat i) +:+ ": " +:+ Py.join " " row.

Definition build_seating_chart (reservations : list Reservation) : string :=
  let seats := seat_grid reservations in
  let lines := imap (λ i row, chart_line (S i) row) seats in
  Py.join newline lines.

(** ** The world a request runs in, and the view monad *)

Record World := mkWorld {
  reservations : list Reservation;    (* table [reservations], in rowid order *)
  admins : list Admin;                (* table [admins] *)
  session : gmap string string;       (* the client's Flask session *)
}.

Record Request := mkRequest {
  method : string;
  form : gmap string string;
}.

(** What a request draws from outside: the random module and the clock
    behind [CURRENT_TIMESTAMP]. *)
Record Env := mkEnv {
  rng : nat → nat;
  now : Z;
}.

Inductive Response :=
| render_index
| render_reserve (error success : option string) (seating : string)
| render_login (error : option string)
| render_admin (seating : string) (total_sales : Z)
    (reservations_with_price : list (Reservation * Z))
| redirect (endpoint : string).

Definition Flask (A : Type) : Type := World → Outcome A * World.

Global Instance Flask_ret : MRet Flask := λ A a w, (Return a, w).
Global Instance Flask_bind : MBind Flask := λ A B f m w,
  match m w with
  | (Return a, w') => f a w'
  | (Raise e, w') => (Raise e, w')
  end.

Definition lift {A} (o : Outcome A) : Flask A := λ w, (o, w).

(** [request.form[key]] *)
Definition form_getitem (req : Request) (key : string) : Outcome string :=
  match form req !! key with
  | Some v => Return v
  | None => Raise (BadRequestKeyError key)
  end.

(** The integers SQLite stores and binds: 64 bits, signed. *)
Definition sqlite_integer (z : Z) : Prop :=
  (-9223372036854775808 ≤ z < 9223372036854775808)%Z.

Global Instance sqlite_integer_dec z : Decision (sqlite_integer z).
Proof. unfold sqlite_integer. apply _. Defined.

Module Query.

(** [Reservation.query.all()] *)
Definition all : Flask (list Reservation) :=
  λ w, (Return (reservations w), w).

(** [Reservation.query.filter_by(seatRow=.., seatColumn=..).first()] *)
Definition first_by_seat (seat_row seat_column : Z)
  : Flask (option Reservation) :=
  λ w, (Return (head (filter
          (λ r, seatRow r = seat_row ∧ seatColumn r = seat_column)
          (reservations w))), w).

(** [Reservation.query.get(res_id)]: the identifier is bound as a
    parameter of the SELECT, and binding an integer SQLite cannot hold
    raises [OverflowError].  The identifiers of stored rows are SQLite
    integers, so a row is only ever found for an identifier in range. *)
Definition get (res_id : Z) : Flask (option Reservation) :=
  λ w,
    match head (filter (λ r, id r = res_id) (reservations w)) with
    | Some r => (Return (Some r), w)
    | None =>
        if decide (sqlite_integer res_id) then (Return None, w)
        else (Raise OverflowError, w)
    end.

(** [Admin.query.filter_by(username=.., password=..).first()] *)
Definition first_admin (user pass : string) : Flask (option Admin) :=
  λ w, (Return (head (filter
          (λ a, username a = user ∧ password a = pass) (admins w))), w).

End Query.

Module Db.

Definition max_id (rs : list Reservation) : option Z :=
  foldr (λ r acc, Some (match acc with
                        | Some m => Z.max (id r) m
                        | None => id r
                        end)) None rs.

(** The rowid SQLite gives to a new row: one more than the largest, 1 in
    an empty table (as long as the largest is below 2^63 - 1). *)
Definition next_id (rs : list Reservation) : Z :=
  match max_id rs with
  | Some m => (m + 1)%Z
  | None => 1%Z
  end.

(** [db.session.add(Reservation(..)); db.session.commit()]: the INSERT
    fails on the UNIQUE constraint of [eTicketNumber] and leaves the table
    as it was. *)
Definition add_commit (timestamp : Z) (passenger_name : string)
    (seat_row seat_column : Z) (code : string) : Flask unit :=
  λ w,
    if bool_decide (code ∈ eTicketNumber <$> reservations w)
    then (Raise IntegrityError, w)
    else
      let new_res :=
        mkReservation (next_id (reservations w)) passenger_name
          seat_row seat_column code timestamp in
      (Return (), mkWorld (reservations w ++ [new_res]) (admins w) (session w)).

(** [db.session.delete(res); db.session.commit()] *)
Definition delete_commit (res : Reservation) : Flask unit :=
  λ w, (Return (),
        mkWorld (filter (λ r, id r ≠ id res) (reservations w))
          (admins w) (session w)).

End Db.

Module Session.

(** [key in session] *)
Definition contains (key : string) : Flask bool :=
  λ w, (Return (bool_decide (key ∈ dom (session w))), w).

(** [session[key] = value] *)
Definition setitem (key value : string) : Flask unit :=
  λ w, (Return (),
        mkWorld (reservations w) (admins w) (<[key := value]> (session w))).

(** [session.pop(key, None)] *)
Definition pop (key : string) : Flask unit :=
  λ w, (Return (),
        mkWorld (reservations w) (admins w) (delete key (session w))).

End Session.

(** ** Routes *)

Definition msg_not_numbers : string := "Seat row and column must be numbers.".
Definition msg_invalid_seat : string :=
  "Invalid seat selection. Row must be 1–12 and column 1–4.".
Definition msg_seat_taken : string :=
  "That seat is already reserved. Please pick another.".
Definition msg_bad_login : string := "Invalid username or password.".

Definition msg_confirmed (passenger_name code : string)
    (seat_row seat_column price : Z) : string :=
  "Reservation confirmed for " +:+ passenger_name +:+ "! "
  +:+ "Code: " +:+ code +:+ ", Seat: Row " +:+ Py.str seat_row
  +:+ ", Column " +:+ Py.str seat_column +:+ ", "
  +:+ "Price: $" +:+ Py.format_2f price.

(** [GET /] *)
Definition index : Flask Response := mret render_index.

(** The body of the [try] in [reserve_seat]. *)
Definition parse_seat `{Py.Runtime} (req : Request) : Outcome (Z * Z) :=
  raw_row ← form_getitem req "seat_row";
  seat_row ← Py.int raw_row;
  raw_column ← form_getitem req "seat_column";
  seat_column ← Py.int raw_column;
  mret (seat_row, seat_column).

(** [GET, POST /reserve] *)
Definition reserve_seat `{Py.Runtime} (env : Env) (req : Request)
  : Flask Response :=
  let error : option string := None in
  let success : option string := None in
  reservations ← Query.all;
  let seating := build_seating_chart reservations in
  if bool_decide (method req = "POST") then
    first_name ← lift (Py.strip <$> form_getitem req "first_name");
    last_name ← lift (Py.strip <$> form_getitem req "last_name");
    let passenger_name := first_name +:+ " " +:+ last_name in
    match parse_seat req with
    | Raise e =>
        if is_KeyError_or_ValueError e
        then mret (render_reserve (Some msg_not_numbers) success seating)
        else lift (Raise e)
    | Return (seat_row, seat_column) =>
        if negb ((1 <=? seat_row)%Z && (seat_row <=? 12)%Z
                 && (1 <=? seat_column)%Z && (seat_column <=? 4)%Z)
        then mret (render_reserve (Some msg_invalid_seat) success seating)
        else
          existing ← Query.first_by_seat seat_row seat_column;
          match existing with
          | Some _ => mret (render_reserve (Some msg_seat_taken) success seating)
          | None =>
              let code := generate_reservation_code (rng env) 8 in
              Db.add_commit (now env) passenger_name seat_row seat_column code;;
              reservations ← Query.all;
              let seating := build_seating_chart reservations in
              price ← lift (calculate_price_for_seat seat_row seat_column);
              let success :=
                Some (msg_confirmed passenger_name code
                        seat_row seat_column price) in
              mret (render_reserve error success seating)
          end
    end
  else mret (render_reserve error success seating).

(** [GET, POST /admin/login] *)
Definition admin_login `{Py.Runtime} (req : Request) : Flask Response :=
  if bool_decide (method req = "POST") then
    user ← lift (Py.strip <$> form_getitem req "username");
    pass ← lift (Py.strip <$> form_getitem req "password");
    admin ← Query.first_admin user pass;
    match admin with
    | Some a =>
        Session.setitem "admin_username" (username a);;
        mret (redirect "admin_dashboard")
    | None => mret (render_login (Some msg_bad_login))
    end
  else mret (render_login None).

(** The loop of [admin_dashboard] that pairs each row with its price. *)
Fixpoint with_prices (rs : list Reservation) (acc : list (Reservation * Z))
  : Outcome (list (Reservation * Z)) :=
  match rs with
  | [] => Return acc
  | r :: rest =>
      price ← calculate_price_for_seat (seatRow r) (seatColumn r);
      with_prices rest (acc ++ [(r, price)])
  end.

(** [GET /admin] *)
Definition admin_dashboard : Flask Response :=
  logged_in ← Session.contains "admin_username";
  if negb logged_in then mret (redirect "admin_login")
  else
    reservations ← Query.all;
    let seating := build_seating_chart reservations in
    total_sales ← lift (calculate_total_sales reservations);
    reservations_with_price ← lift (with_prices reservations []);
    mret (render_admin seating total_sales reservations_with_price).

(** [POST /admin/delete/<int:res_id>] *)
Definition delete_reservation (res_id : Z) : Flask Response :=
  logged_in ← Session.contains "admin_username";
  if negb logged_in then mret (redirect "admin_login")
  else
    res ← Query.get res_id;
    match res with
    | Some r => Db.delete_commit r
    | None => mret ()
    end;;
    mret (redirect "admin_dashboard").

(** [GET /admin/logout] *)
Definition admin_logout : Flask Response :=
  Session.pop "admin_username";;
  mret (redirect "index").

(** What the framework answers for the outcome of a view (outside debug
    mode, where a bad request key is trapped as an unhandled error). *)
Definition status_code (o : Outcome Response) : nat :=
  match o with
  | Return (redirect _) => 302
  | Return _ => 200
  | Raise (BadRequestKeyError _) => 400
  | Raise _ => 500
  end.

(** ** The application as a transition system *)

Inductive Call :=
| call_index
| call_reserve_seat (env : Env) (req : Request)
| call_admin_login (req : Request)
| call_admin_dashboard
| call_delete_reservation (res_id : Z)
| call_admin_logout.

Definition view `{Py.Runtime} (c : Call) : Flask Response :=
  match c with
  | call_index => index
  | call_reserve_seat env req => reserve_seat env req
  | call_admin_login req => admin_login req
  | call_admin_dashboard => admin_dashboard
  | call_delete_reservation res_id => delete_reservation res_id
  | call_admin_logout => admin_logout
  end.

Definition step `{Py.Runtime} (w : World) (c : Call) : World := (view c w).2.

Definition run `{Py.Runtime} (w : World) (cs : list Call) : World :=
  foldl step w cs.

(** ** Vocabulary of the specification *)

(** The price table as the specification words it: by column only. *)
Definition spec_price (c : Z) : Z :=
  if decide (c = 1 ∨ c = 4)%Z then 100%Z
  else if decide (c = 2)%Z then 75%Z
  else 50%Z.

Definition seat_ok (r c : Z) : Prop := (1 ≤ r ≤ 12)%Z ∧ (1 ≤ c ≤ 4)%Z.

Definition at_seat (r c : Z) (x : Reservation) : Prop :=
  seatRow x = r ∧ seatColumn x = c.

Global Instance at_seat_dec r c x : Decision (at_seat r c x).
Proof. unfold at_seat. apply _. Defined.

Definition count_seat (rs : list Reservation) (r c : Z) : nat :=
  length (filter (at_seat r c) rs).

(** At most one reservation per (seatRow, seatColumn). *)
Definition seat_unique (rs : list Reservation) : Prop :=
  NoDup ((λ x, (seatRow x, seatColumn x)) <$> rs).

(** A submitted booking form with both names, whose seat fields read as
    the integers [r] and [c]. *)
Definition booking_attempt `{Py.Runtime} (req : Request) (r c : Z) : Prop :=
  method req = "POST"
  ∧ is_Some (form req !! "first_name")
  ∧ is_Some (form req !! "last_name")
  ∧ parse_seat req = Return (r, c).

(** A seat field of the form read as an integer: [None] when the field is
    missing or [int] rejects its text. *)
Definition seat_field `{Py.Runtime} (req : Request) (key : string)
  : option Z :=
  s ← form req !! key;
  match Py.int s with
  | Return z => Some z
  | Raise _ => None
  end.

(** The seat input the validation rules reject: a field is missing or
    does not read as an integer, or the seat is off the grid. *)
Definition bad_seat_input `{Py.Runtime} (req : Request) : Prop :=
  match seat_field req "seat_row", seat_field req "seat_column" with
  | Some r, Some c => ¬ seat_ok r c
  | _, _ => True
  end.

Definition is_validation_error (o : Outcome Response) : Prop :=
  ∃ seating,
    o = Return (render_reserve (Some msg_not_numbers) None seating)
    ∨ o = Return (render_reserve (Some msg_invalid_seat) None seating).

Definition is_success (o : Outcome Response) : Prop :=
  ∃ msg seating, o = Return (render_reserve None (Some msg) seating).

(** The cell of seat (r, c), 1-indexed, read back from the chart text:
    sixteen characters per line, the cells from the ninth on, two apart. *)
Definition chart_cell (text : string) (r c : nat) : option string :=
  (λ ch, String ch EmptyString) <$> String.get ((r - 1) * 16 + 8 + 2 * (c - 1)) text.

Definition grid_cell (g : list (list string)) (i j : nat) : option string :=
  g !! i ≫= (.!! j).

Definition render_grid (seats : list (list string)) : string :=
  Py.join newline (imap (λ i row, chart_line (S i) row) seats).

Definition price_of (r : Reservation) : Outcome Z :=
  calculate_price_for_seat (seatRow r) (seatColumn r).

Definition sum_Z (l : list Z) : Z := foldr Z.add 0%Z l.

Fixpoint all_prices (rs : list Reservation) : Outcome (list Z) :=
  match rs with
  | [] => Return []
  | r :: rest => p ← price_of r; ps ← all_prices rest; mret (p :: ps)
  end.

(** [passenger_name] as [reserve_seat] builds it from the form. *)
Definition passenger_name_of `{Py.Runtime} (req : Request) : string :=
  Py.strip (default EmptyString (form req !! "first_name")) +:+ " "
  +:+ Py.strip (default EmptyString (form req !! "last_name")).

(** The row a booking of seat (r, c) stores. *)
Definition new_reservation `{Py.Runtime} (env : Env) (req : Request)
    (w : World) (r c : Z) : Reservation :=
  mkReservation (Db.next_id (reservations w)) (passenger_name_of req) r c
    (generate_reservation_code (rng env) 8) (now env).

Definition tickets (w : World) : list string :=
  eTicketNumber <$> reservations w.

Definition logged_in (w : World) : Prop := "admin_username" ∈ dom (session w).

(** The 36 symbols a reservation code is drawn from. *)
Definition alphabet : list ascii :=
  list_ascii_of_string (Py.ascii_uppercase +:+ Py.digits).

Definition is_upper_or_digit (a : ascii) : bool :=
  let n := nat_of_ascii a in
  ((65 <=? n)%nat && (n <=? 90)%nat || (48 <=? n)%nat && (n <=? 57)%nat)%bool.

(** The shape the marking loop keeps: 12 rows of 4 cells, each O or X. *)
Definition grid_ok (g : list (list string)) : Prop :=
  length g = 12
  ∧ Forall (λ row, length row = 4 ∧ Forall (λ s, s = "O" ∨ s = "X") row) g.

(** What [reserve_seat] answers to a form with both names whose seat input
    is rejected. *)
Definition seat_error `{Py.Runtime} (req : Request) : string :=
  match seat_field req "seat_row", seat_field req "seat_column" with
  | Some _, Some _ => msg_invalid_seat
  | _, _ => msg_not_numbers
  end.

(** Sample data *)

Definition sample_env : Env := mkEnv (λ i, 7 * i) 0.
Definition other_env : Env := mkEnv (λ i, i) 0.

Definition sample_request (row col : string) : Request :=
  mkRequest "POST"
    (<["first_name" := " Ann "]> (<["last_name" := "Lee"]>
       (<["seat_row" := row]> (<["seat_column" := col]> ∅)))).

Definition empty_request : Request := mkRequest "POST" ∅.

Definition login_request : Request :=
  mkRequest "POST" (<["username" := "a"]> (<["password" := " p "]> ∅)).

Definition empty_store : World := mkWorld [] [mkAdmin "a" "p"] ∅.

Definition admin_store : World :=
  mkWorld [] [mkAdmin "a" "p"] {["admin_username" := "a"]}.

Definition booked_store : World :=
  mkWorld [mkReservation 1 "Ann Lee" 1 1 "AHOV29GN" 0;
           mkReservation 2 "Bob Ray" 1 3 "ABCDEFGH" 0]
    [mkAdmin "a" "p"] {["admin_username" := "a"]}.

(** More vocabulary: rows on the grid, rows the price lookup can index,
    and a login form whose trimmed credentials are those of an admin. *)

Global Instance seat_ok_dec r c : Decision (seat_ok r c).
Proof. unfold seat_ok. apply _. Defined.

Definition on_grid (x : Reservation) : Prop :=
  seat_ok (seatRow x) (seatColumn x).

Global Instance on_grid_dec x : Decision (on_grid x).
Proof. unfold on_grid. apply _. Defined.

Definition price_index_ok (x : Reservation) : Prop :=
  (-11 ≤ seatRow x ≤ 12)%Z ∧ (-3 ≤ seatColumn x ≤ 4)%Z.

Global Instance price_index_ok_dec x : Decision (price_index_ok x).
Proof. unfold price_index_ok. apply _. Defined.

Definition credentials_match `{Py.Runtime} (req : Request) (a : Admin)
  : Prop :=
  ∃ u p,
    form req !! "username" = Some u ∧ form req !! "password" = Some p
    ∧ username a = Py.strip u ∧ password a = Py.strip p.


Definition wrong_login_request : Request :=
  mkRequest "POST" (<["username" := "a"]> (<["password" := "q"]> ∅)).

Definition get_request : Request := mkRequest "GET" ∅.

(** A form whose names and seat are written with no-break spaces and
    full-width digits. *)
Definition wide_request : Request :=
  mkRequest "POST"
    (<["first_name" := " Ann "]> (<["last_name" := "Lee　"]>
       (<["seat_row" := "１２"]> (<["seat_column" := " 4"]> ∅)))).

(** The control character FS, whitespace for [str.strip] only. *)
Definition fs : string := String (ascii_of_nat 28) EmptyString.

(** The smallest identifier SQLite cannot hold. *)
Definition huge_id : Z := 9223372036854775808.

Definition off_grid_store : World :=
  mkWorld [mkReservation 1 "Ann Lee" 13 1 "AHOV29GN" 0;
           mkReservation 2 "Bob Ray" 1 3 "ABCDEFGH" 0]
    [mkAdmin "a" "p"] {["admin_username" := "a"]}.

(** The primary key and the UNIQUE column of table [reservations]. *)
Definition keys_unique (w : World) : Prop :=
  NoDup (id <$> reservations w) ∧ NoDup (tickets w).

(** ** Python indexing *)

Section properties.
Context {rt : Py.Runtime}.

Section getitem.
Context {A : Type}.
Implicit Types (l : list A) (i : Z).

Lemma getitem_nonneg l i x :
  (0 ≤ i)%Z → l !! Z.to_nat i = Some x → Py.getitem l i = Return x.
Proof.
  intros Hi Hx. unfold Py.getitem.
  apply lookup_lt_Some in Hx as Hlt.
  destruct (Z.ltb_spec i 0); [lia|].
  destruct (Z.leb_spec 0 i); [|lia].
  destruct (Z.ltb_spec i (Z.of_nat (length l))); [|lia].
  simpl. by rewrite Hx.
Qed.

Lemma getitem_negative l i x :
  (i < 0)%Z → (0 ≤ i + Z.of_nat (length l))%Z →
  l !! Z.to_nat (i + Z.of_nat (length l)) = Some x →
  Py.getitem l i = Return x.
Proof.
  intros Hi Hj Hx. unfold Py.getitem.
  destruct (Z.ltb_spec i 0); [|lia].
  destruct (Z.leb_spec 0 (i + Z.of_nat (length l))); [|lia].
  destruct (Z.ltb_spec (i + Z.of_nat (length l)) (Z.of_nat (length l)));
    [|lia].
  simpl. by rewrite Hx.
Qed.

Lemma getitem_out_of_range l i :
  (i < - Z.of_nat (length l) ∨ Z.of_nat (length l) ≤ i)%Z →
  Py.getitem l i = Raise IndexError.
Proof.
  intros Hi. unfold Py.getitem.
  destruct (Z.ltb_spec i 0).
  - destruct (Z.leb_spec 0 (i + Z.of_nat (length l))); [lia|done].
  - destruct (Z.leb_spec 0 i); [|done].
    destruct (Z.ltb_spec i (Z.of_nat (length l))); [lia|done].
Qed.

Lemma getitem_Return_range l i x :
  Py.getitem l i = Return x →
  (- Z.of_nat (length l) ≤ i < Z.of_nat (length l))%Z.
Proof.
  intros H.
  destruct (decide (i < - Z.of_nat (length l) ∨ Z.of_nat (length l) ≤ i)%Z)
    as [Hout|Hin]; [|lia].
  by rewrite getitem_out_of_range in H.
Qed.
End getitem.

(** ** Pricing *)

Lemma cost_matrix_row (i : nat) :
  i < 12 → get_cost_matrix !! i = Some [100; 75; 50; 100]%Z.
Proof. intros. unfold get_cost_matrix. by apply lookup_replicate_2. Qed.

Lemma price_in_range (r c : Z) :
  seat_ok r c → calculate_price_for_seat r c = Return (spec_price c).
Proof.
  intros [Hr Hc]. unfold calculate_price_for_seat.
  rewrite (getitem_nonneg _ _ [100; 75; 50; 100]%Z);
    [|lia|apply cost_matrix_row; lia].
  simpl.
  assert (c = 1 ∨ c = 2 ∨ c = 3 ∨ c = 4)%Z as Hcase by lia.
  destruct Hcase as [-> | [-> | [-> | ->]]]; reflexivity.
Qed.

(** C2: for every row in [1,12] and column in [1,4] the price is 100 in
    columns 1 and 4, 75 in column 2 and 50 in column 3, whatever the row. *)
Theorem price_by_column (r c : Z) :
  (1 ≤ r ≤ 12)%Z → (1 ≤ c ≤ 4)%Z →
  calculate_price_for_seat r c
  = Return (if decide (c = 1 ∨ c = 4)%Z then 100%Z
            else if decide (c = 2)%Z then 75%Z
            else 50%Z)
  ∧ (c = 1 ∨ c = 4 → calculate_price_for_seat r c = Return 100)%Z
  ∧ (c = 2 → calculate_price_for_seat r c = Return 75)%Z
  ∧ (c = 3 → calculate_price_for_seat r c = Return 50)%Z.
Proof.
  intros Hr Hc.
  pose proof (price_in_range r c (conj Hr Hc)) as H.
  rewrite H. unfold spec_price.
  split; [done|].
  repeat split; intros Hcol; repeat case_decide; (done || lia).
Qed.

Lemma price_by_column_witness :
  calculate_price_for_seat 7 2 = Return 75%Z.
Proof.
  destruct (price_by_column 7 2) as (_ & _ & H & _); [lia|lia|].
  by apply H.
Defined.

Lemma cost_matrix_getitem (i : Z) :
  (-12 ≤ i < 12)%Z → Py.getitem get_cost_matrix i = Return [100; 75; 50; 100]%Z.
Proof.
  intros Hi. destruct (decide (0 ≤ i)%Z).
  - apply getitem_nonneg; [done|]. apply cost_matrix_row. lia.
  - apply getitem_negative; [lia|simpl; lia|].
    apply cost_matrix_row. simpl. lia.
Qed.

(** C9, as the code has it: the index error is raised exactly outside rows
    [-11,12] and columns [-3,4]; from there up to 0 Python's negative
    indexing wraps around (row [r] reads row [r + 12], column [c] reads
    column [c + 4]) and a price is returned. *)
Theorem price_index_error (row col : Z) :
  ((row < -11 ∨ 12 < row ∨ col < -3 ∨ 4 < col)%Z →
   calculate_price_for_seat row col = Raise IndexError)
  ∧ ((-11 ≤ row ≤ 12)%Z → (-3 ≤ col ≤ 4)%Z →
     calculate_price_for_seat row col
     = Return (spec_price (if decide (col ≤ 0)%Z then col + 4 else col)%Z)).
Proof.
  split.
  - intros Hout. unfold calculate_price_for_seat.
    destruct (decide (row < -11 ∨ 12 < row)%Z) as [Hrow|Hrow].
    + rewrite getitem_out_of_range; [done|]. simpl. lia.
    + rewrite cost_matrix_getitem by lia. simpl.
      apply getitem_out_of_range. simpl. lia.
  - intros Hrow Hcol. unfold calculate_price_for_seat.
    rewrite cost_matrix_getitem by lia. simpl.
    assert (col = -3 ∨ col = -2 ∨ col = -1 ∨ col = 0
            ∨ col = 1 ∨ col = 2 ∨ col = 3 ∨ col = 4)%Z as Hcase by lia.
    destruct Hcase as [-> | [-> | [-> | [-> | [-> | [-> | [-> | ->]]]]]]];
      reflexivity.
Qed.

Lemma price_index_error_witness :
  calculate_price_for_seat 13 1 = Raise IndexError
  ∧ calculate_price_for_seat (-11) 0 = Return 100%Z.
Proof.
  split.
  - apply (proj1 (price_index_error 13 1)). lia.
  - apply (proj2 (price_index_error (-11) 0)); lia.
Defined.

(** C9 as stated fails: row 0 is outside [1,12], yet the lookup lands on
    the last row of the matrix and returns its price. *)
Lemma price_out_of_range_counterexample :
  ¬ (1 ≤ 0 ≤ 12)%Z
  ∧ calculate_price_for_seat 0 1 = Return 100%Z
  ∧ calculate_price_for_seat 0 1 ≠ Raise IndexError.
Proof. split; [lia|]. split; [reflexivity|discriminate]. Qed.

(** ** Reservation codes *)

Lemma length_string_of_list_ascii (l : list ascii) :
  String.length (string_of_list_ascii l) = length l.
Proof. induction l as [|a l IH]; simpl; congruence. Qed.

Section choices.
Context {A : Type} (rng : nat → nat) (population : list A).
Hypothesis nonempty : population ≠ [].

Lemma random_choices_from (start k : nat) :
  let picks :=
    omap (λ i, population !! (rng i `mod` length population)) (seq start k) in
  length picks = k ∧ Forall (λ x, x ∈ population) picks.
Proof.
  revert start. induction k as [|k IH]; intros start; simpl.
  - split; [done|constructor].
  - assert (rng start `mod` length population < length population) as Hlt.
    { apply Nat.mod_upper_bound. by destruct population. }
    destruct (lookup_lt_is_Some_2 _ _ Hlt) as [x Hx].
    rewrite Hx. destruct (IH (S start)) as [Hlen Hall].
    change (list_omap nat A) with (@omap list _ nat A).
    split; [simpl; by rewrite Hlen|].
    constructor; [|done]. by eapply list_elem_of_lookup_2.
Qed.

Lemma random_choices_length (k : nat) :
  length (Py.random_choices rng population k) = k.
Proof. apply (random_choices_from 0 k). Qed.

Lemma random_choices_elem (k : nat) (x : A) :
  x ∈ Py.random_choices rng population k → x ∈ population.
Proof.
  intros Hx. pose proof (proj2 (random_choices_from 0 k)) as Hall.
  rewrite Forall_forall in Hall. by apply Hall.
Qed.
End choices.

Lemma alphabet_upper_or_digit (a : ascii) :
  a ∈ alphabet ↔ is_upper_or_digit a = true.
Proof.
  split.
  - intros Ha. vm_compute in Ha.
    repeat (apply elem_of_cons in Ha as [-> | Ha]; [reflexivity|]).
    by apply elem_of_nil in Ha.
  - intros Ha. rewrite <- (ascii_nat_embedding a).
    unfold is_upper_or_digit in Ha.
    set (n := nat_of_ascii a) in *. clearbody n.
    apply orb_true_iff in Ha.
    assert (48 ≤ n ≤ 57 ∨ 65 ≤ n ≤ 90) as Hn.
    { destruct Ha as [Ha|Ha]; apply andb_true_iff in Ha as [H1 H2];
        apply Nat.leb_le in H1, H2; lia. }
    assert (∃ d, d < 43 ∧ n = 48 + d) as (d & Hd & ->)
      by (exists (n - 48); lia).
    do 43 (destruct d as [|d];
           [first [lia | apply (bool_decide_unpack _); vm_compute; exact I]|]).
    lia.
Qed.

(** C8: a generated reservation code has exactly 8 characters, each one of
    the 36 symbols A–Z, 0–9. *)
Theorem reservation_code_shape (rng : nat → nat) :
  let code := generate_reservation_code rng 8 in
  String.length code = 8
  ∧ (∀ ch, ch ∈ list_ascii_of_string code →
       ch ∈ alphabet ∧ is_upper_or_digit ch = true)
  ∧ length alphabet = 36 ∧ NoDup alphabet
  ∧ (∀ ch, ch ∈ alphabet ↔ is_upper_or_digit ch = true).
Proof.
  assert (alphabet ≠ []) as Hne by discriminate.
  cbv zeta. unfold generate_reservation_code. fold alphabet.
  split; [|split; [|split; [|split]]].
  - rewrite length_string_of_list_ascii. by apply random_choices_length.
  - intros ch. rewrite list_ascii_of_string_of_list_ascii. intros Hch.
    apply random_choices_elem in Hch; [|done].
    split; [done|]. by apply alphabet_upper_or_digit.
  - reflexivity.
  - apply (bool_decide_unpack _). vm_compute. exact I.
  - apply alphabet_upper_or_digit.
Qed.

(** ** Total sales *)

Lemma total_sales_loop_spec (rs : list Reservation) (total : Z) :
  total_sales_loop rs total = (λ ps, total + sum_Z ps)%Z <$> all_prices rs.
Proof.
  revert total. induction rs as [|r rs IH]; intros total; simpl.
  - unfold fmap, Outcome_fmap. simpl. f_equal. lia.
  - unfold price_of. destruct (calculate_price_for_seat _ _) as [p|e]; simpl;
      [|done].
    rewrite IH. destruct (all_prices rs) as [ps|e]; simpl; [|done].
    unfold fmap, Outcome_fmap. simpl. f_equal. lia.
Qed.

Lemma with_prices_spec (rs : list Reservation) (acc : list (Reservation * Z)) :
  with_prices rs acc = (λ ps : list Z, (acc ++ zip rs ps)%list) <$> all_prices rs.
Proof.
  revert acc. induction rs as [|r rs IH]; intros acc; simpl.
  - unfold fmap, Outcome_fmap. simpl. by rewrite app_nil_r.
  - unfold price_of. destruct (calculate_price_for_seat _ _) as [p|e]; simpl;
      [|done].
    rewrite IH. destruct (all_prices rs) as [ps|e]; simpl; [|done].
    unfold fmap, Outcome_fmap. simpl. by rewrite <- app_assoc.
Qed.

Lemma all_prices_in_range (rs : list Reservation) :
  Forall (λ r, seat_ok (seatRow r) (seatColumn r)) rs →
  all_prices rs = Return ((λ r, spec_price (seatColumn r)) <$> rs).
Proof.
  induction 1 as [|r rs Hr _ IH]; simpl; [done|].
  unfold price_of. rewrite (price_in_range _ _ Hr). simpl.
  by rewrite IH.
Qed.

Ltac flask_unfold :=
  unfold mbind, mret, Flask_bind, Flask_ret, lift,
    Session.contains, Session.setitem, Session.pop,
    Query.all, Query.get, Query.first_by_seat, Query.first_admin,
    Db.add_commit, Db.delete_commit.

Lemma admin_dashboard_anonymous (w : World) :
  ¬ logged_in w → admin_dashboard w = (Return (redirect "admin_login"), w).
Proof.
  intros Hno. unfold admin_dashboard. flask_unfold.
  by rewrite bool_decide_eq_false_2.
Qed.

Lemma admin_dashboard_logged_in (w : World) :
  logged_in w →
  admin_dashboard w
  = (match all_prices (reservations w) with
     | Return ps =>
         Return (render_admin (build_seating_chart (reservations w))
                   (sum_Z ps) (zip (reservations w) ps))
     | Raise e => Raise e
     end, w).
Proof.
  intros Hin. unfold admin_dashboard. flask_unfold.
  rewrite bool_decide_eq_true_2 by done. simpl.
  unfold calculate_total_sales.
  rewrite total_sales_loop_spec, with_prices_spec.
  by destruct (all_prices (reservations w)) as [ps|e].
Qed.

(** ** The seating grid *)

Lemma open_seats_ok : grid_ok open_seats.
Proof.
  split; [done|]. unfold open_seats.
  apply Forall_replicate. split; [done|].
  apply Forall_replicate. by left.
Qed.

Lemma mark_seat_ok (g : list (list string)) (r : Reservation) :
  grid_ok g → grid_ok (mark_seat g r).
Proof.
  intros [Hlen Hrows]. unfold mark_seat.
  destruct (_ && _)%bool; [|done].
  split; [by rewrite length_alter|].
  apply Forall_alter; [done|].
  intros row _ [Hrow Hcells]. split; [by rewrite length_insert|].
  apply Forall_insert; [done|by right].
Qed.

Lemma foldl_mark_seat_ok (rs : list Reservation) (g : list (list string)) :
  grid_ok g → grid_ok (foldl mark_seat g rs).
Proof.
  revert g. induction rs as [|r rs IH]; intros g Hg; simpl; [done|].
  by apply IH, mark_seat_ok.
Qed.

Lemma seat_grid_ok (rs : list Reservation) : grid_ok (seat_grid rs).
Proof. apply foldl_mark_seat_ok, open_seats_ok. Qed.

Lemma grid_cell_open (i j : nat) :
  i < 12 → j < 4 → grid_cell open_seats i j = Some "O".
Proof.
  intros Hi Hj. unfold grid_cell, open_seats.
  rewrite lookup_replicate_2 by done. simpl.
  do 4 (destruct j as [|j]; [done|]). lia.
Qed.

(** What one assignment [seats[row_idx][col_idx] = "X"] does to a cell. *)
Lemma grid_cell_mark (g : list (list string)) (r : Reservation) (i j : nat) :
  grid_ok g → i < 12 → j < 4 →
  grid_cell (mark_seat g r) i j
  = if decide (at_seat (Z.of_nat i + 1) (Z.of_nat j + 1) r)
    then Some "X" else grid_cell g i j.
Proof.
  intros [Hlen Hrows] Hi Hj. unfold mark_seat, at_seat, grid_cell.
  destruct (lookup_lt_is_Some_2 g i) as [row Hrow]; [lia|].
  assert (length row = 4) as Hrowlen.
  { rewrite Forall_forall in Hrows.
    apply (Hrows row). by eapply list_elem_of_lookup_2. }
  destruct (_ && _)%bool eqn:Hrange.
  - repeat (apply andb_true_iff in Hrange as [Hrange ?]).
    rewrite list_lookup_alter.
    case_decide as Hpos.
    + case_decide as Hi'.
      * replace (Z.to_nat (seatRow r - 1)) with i in * by lia.
        rewrite Hrow. simpl.
        replace (Z.to_nat (seatColumn r - 1)) with j by lia.
        apply list_lookup_insert_eq. lia.
      * rewrite Hrow; simpl.
        destruct (decide (Z.to_nat (seatColumn r - 1) = j)) as [Hc|Hc].
        -- exfalso. apply Hi'. lia.
        -- subst i. rewrite Hrow. simpl.
           by rewrite list_lookup_insert_ne.
    + case_decide as Hi'; [lia|done].
  - case_decide as Hseat; [|done].
    destruct Hseat as [Hr Hc]. rewrite Hr, Hc in Hrange.
    exfalso. revert Hrange.
    rewrite !andb_false_iff, !Z.leb_gt, !Z.ltb_ge. lia.
Qed.

(** The grid shows exactly the reserved seats. *)
Lemma grid_cell_seat_grid (rs : list Reservation) (i j : nat) :
  i < 12 → j < 4 →
  grid_cell (seat_grid rs) i j
  = Some (if decide (Exists (at_seat (Z.of_nat i + 1) (Z.of_nat j + 1)) rs)
          then "X" else "O").
Proof.
  intros Hi Hj. induction rs as [|x rs IH] using rev_ind.
  - rewrite decide_False by (rewrite Exists_nil; tauto).
    by apply grid_cell_open.
  - unfold seat_grid. rewrite foldl_snoc. fold (seat_grid rs).
    rewrite grid_cell_mark by (done || apply seat_grid_ok).
    rewrite IH.
    destruct (decide (at_seat _ _ x)) as [Hx|Hx].
    + rewrite decide_True; [done|].
      apply Exists_app. right. by constructor.
    + destruct (decide (Exists _ rs)) as [Hrs|Hrs].
      * rewrite decide_True; [done|]. apply Exists_app. by left.
      * rewrite decide_False; [done|].
        rewrite Exists_app, Exists_cons, Exists_nil. tauto.
Qed.

(** ** Reading the chart text *)

Lemma row_shape (row : list string) :
  length row = 4 ∧ Forall (λ s, s = "O" ∨ s = "X") row →
  ∃ a b c d,
    row = [String a EmptyString; String b EmptyString; String c EmptyString; String d EmptyString].
Proof.
  intros [Hlen Hcells].
  do 4 (destruct row as [|? row]; [discriminate|]).
  destruct row; [|discriminate].
  repeat (apply Forall_cons in Hcells as [[-> | ->] Hcells]);
    by repeat eexists.
Qed.

(** The text of the chart carries the grid: the character at the place of
    seat (i+1, j+1) is the grid's cell (i, j). *)
Lemma chart_cell_render (g : list (list string)) (i j : nat) :
  grid_ok g → i < 12 → j < 4 →
  chart_cell (render_grid g) (S i) (S j) = grid_cell g i j.
Proof.
  intros [Hlen Hrows] Hi Hj.
  do 12 (destruct g as [|? g]; [discriminate|]).
  destruct g; [|discriminate]. clear Hlen.
  repeat match goal with
         | H : Forall _ (_ :: _) |- _ =>
             let Hrow := fresh "Hrow" in
             apply Forall_cons in H as [Hrow H];
             apply row_shape in Hrow as (? & ? & ? & ? & ->)
         end.
  clear Hrows.
  do 12 (destruct i as [|i];
         [do 4 (destruct j as [|j]; [reflexivity|]); lia|]).
  lia.
Qed.

Lemma chart_cell_build (rs : list Reservation) (r c : Z) :
  seat_ok r c →
  chart_cell (build_seating_chart rs) (Z.to_nat r) (Z.to_nat c)
  = Some (if decide (Exists (at_seat r c) rs) then "X" else "O").
Proof.
  intros [Hr Hc].
  change (build_seating_chart rs) with (render_grid (seat_grid rs)).
  replace (Z.to_nat r) with (S (Z.to_nat (r - 1))) by lia.
  replace (Z.to_nat c) with (S (Z.to_nat (c - 1))) by lia.
  rewrite chart_cell_render by (apply seat_grid_ok || lia).
  rewrite grid_cell_seat_grid by lia.
  by replace (Z.of_nat (Z.to_nat (r - 1)) + 1)%Z with r by lia;
     replace (Z.of_nat (Z.to_nat (c - 1)) + 1)%Z with c by lia.
Qed.

(** ** The booking flow *)

Arguments build_seating_chart : simpl never.
Arguments generate_reservation_code : simpl never.
Arguments Py.strip : simpl never.
Arguments msg_confirmed : simpl never.
Arguments calculate_price_for_seat : simpl never.
Arguments Db.next_id : simpl never.

Lemma seat_ok_test (r c : Z) :
  seat_ok r c ↔
  ((1 <=? r)%Z && (r <=? 12)%Z && (1 <=? c)%Z && (c <=? 4)%Z)%bool = true.
Proof. unfold seat_ok. rewrite !andb_true_iff, !Z.leb_le. tauto. Qed.

(** A complete form for an in-range seat: the three ways it can end. *)
Lemma reserve_seat_attempt (env : Env) (req : Request) (w : World) (r c : Z) :
  booking_attempt req r c → seat_ok r c →
  reserve_seat env req w
  = match head (filter (at_seat r c) (reservations w)) with
    | Some _ =>
        (Return (render_reserve (Some msg_seat_taken) None
                   (build_seating_chart (reservations w))), w)
    | None =>
        if bool_decide (generate_reservation_code (rng env) 8 ∈ tickets w)
        then (Raise IntegrityError, w)
        else
          let rs' := (reservations w ++ [new_reservation env req w r c])%list in
          (Return (render_reserve None
                     (Some (msg_confirmed (passenger_name_of req)
                              (generate_reservation_code (rng env) 8)
                              r c (spec_price c)))
                     (build_seating_chart rs')),
           mkWorld rs' (admins w) (session w))
    end.
Proof.
  intros (Hpost & [fn Hfn] & [ln Hln] & Hparse) Hok.
  unfold reserve_seat. flask_unfold.
  rewrite bool_decide_eq_true_2 by done.
  unfold form_getitem at 1 2. rewrite Hfn, Hln. simpl.
  rewrite Hparse.
  apply seat_ok_test in Hok as Htest. rewrite Htest. simpl.
  change (λ r0 : Reservation, seatRow r0 = r ∧ seatColumn r0 = c)
    with (at_seat r c).
  destruct (head (filter (at_seat r c) (reservations w))); [done|].
  fold (tickets w).
  destruct (bool_decide (_ ∈ tickets w)); [done|]. simpl.
  rewrite (price_in_range r c Hok). simpl.
  unfold new_reservation, passenger_name_of. by rewrite Hfn, Hln.
Qed.

Ltac not_success :=
  let msg := fresh "msg" in
  let s := fresh "s" in
  let H := fresh "H" in
  intros (msg & s & H); discriminate H.

(** Every run of [reserve_seat]: either nothing is stored and the answer
    is not a confirmation, or the form was complete, the seat on the grid
    and free, the code new, and exactly the new row is appended. *)
Lemma reserve_seat_cases (env : Env) (req : Request) (w : World) :
((¬ is_success (reserve_seat env req w).1) ∧ (reserve_seat env req w).2 = w)
  ∨ (∃ r c,
       booking_attempt req r c ∧ seat_ok r c
       ∧ head (filter (at_seat r c) (reservations w)) = None
       ∧ (generate_reservation_code (rng env) 8 ∉ tickets w)
       ∧ reserve_seat env req w
         = (Return (render_reserve None
                      (Some (msg_confirmed (passenger_name_of req)
                               (generate_reservation_code (rng env) 8)
                               r c (spec_price c)))
                      (build_seating_chart
                         (reservations w ++ [new_reservation env req w r c]))),
            mkWorld (reservations w ++ [new_reservation env req w r c])
              (admins w) (session w))).
Proof.
  destruct (decide (method req = "POST")) as [Hpost|Hget]; cycle 1.
  { left. unfold reserve_seat. flask_unfold.
    rewrite bool_decide_eq_false_2 by done. simpl.
    split; [not_success|done]. }
  destruct (form req !! "first_name") as [fn|] eqn:Hfn; cycle 1.
  { left. unfold reserve_seat. flask_unfold.
    rewrite bool_decide_eq_true_2 by done.
    unfold form_getitem. rewrite Hfn. simpl.
    split; [not_success|done]. }
  destruct (form req !! "last_name") as [ln|] eqn:Hln; cycle 1.
  { left. unfold reserve_seat. flask_unfold.
    rewrite bool_decide_eq_true_2 by done.
    unfold form_getitem. rewrite Hfn, Hln. simpl.
    split; [not_success|done]. }
  destruct (parse_seat req) as [[r c]|e] eqn:Hparse; cycle 1.
  { left. unfold reserve_seat. flask_unfold.
    rewrite bool_decide_eq_true_2 by done.
    unfold form_getitem. rewrite Hfn, Hln. simpl. rewrite Hparse.
    destruct (is_KeyError_or_ValueError e); simpl;
      (split; [not_success|done]). }
  destruct (decide (seat_ok r c)) as [Hok|Hbad]; cycle 1.
  { left. unfold reserve_seat. flask_unfold.
    rewrite bool_decide_eq_true_2 by done.
    unfold form_getitem. rewrite Hfn, Hln. simpl. rewrite Hparse.
    rewrite seat_ok_test in Hbad. apply not_true_is_false in Hbad.
    rewrite Hbad. simpl. split; [not_success|done]. }
  assert (booking_attempt req r c) as Hattempt.
  { repeat split; [done|by eexists|by eexists|done]. }
  rewrite (reserve_seat_attempt env req w r c Hattempt Hok).
  destruct (head (filter (at_seat r c) (reservations w))) eqn:Hfree.
  { left. simpl. split; [not_success|done]. }
  destruct (decide (generate_reservation_code (rng env) 8 ∈ tickets w))
    as [Hdup|Hnew].
  { left. rewrite bool_decide_eq_true_2 by done. simpl.
    split; [not_success|done]. }
  right. exists r, c. rewrite bool_decide_eq_false_2 by done.
  by split_and!.
Qed.

Lemma filter_nil_Exists {A} (P : A → Prop) `{!∀ x, Decision (P x)}
    (l : list A) :
  filter P l = [] ↔ ¬ Exists P l.
Proof.
  rewrite Exists_exists. split.
  - intros Hnil (x & Hx & HP). by eapply filter_nil_not_elem_of.
  - intros Hno. destruct (filter P l) as [|x l'] eqn:Hf; [done|].
    exfalso. apply Hno. exists x.
    apply and_comm, (list_elem_of_filter P). rewrite Hf. by left.
Qed.

Lemma count_seat_zero (rs : list Reservation) (r c : Z) :
  count_seat rs r c = 0 ↔ ¬ Exists (at_seat r c) rs.
Proof.
  unfold count_seat. rewrite <- filter_nil_Exists.
  split; [apply nil_length_inv|by intros ->].
Qed.

(** The chart after one more row: the new seat turns occupied, every
    other cell reads as before. *)
Lemma chart_cell_snoc (rs : list Reservation) (x : Reservation) (i j : Z) :
  seat_ok i j →
  chart_cell (build_seating_chart (rs ++ [x])) (Z.to_nat i) (Z.to_nat j)
  = if decide (at_seat i j x) then Some "X"
    else chart_cell (build_seating_chart rs) (Z.to_nat i) (Z.to_nat j).
Proof.
  intros Hij. rewrite !chart_cell_build by done.
  destruct (decide (at_seat i j x)) as [Hx|Hx].
  - rewrite decide_True; [done|]. apply Exists_app. right. by constructor.
  - f_equal. apply decide_ext.
    rewrite Exists_app, Exists_cons, Exists_nil. tauto.
Qed.

(** C1: a booking of a free seat (r, c) on the grid.  When it is confirmed,
    exactly one row, for (r, c), is appended to the table and nothing else
    in the store moves; the chart sent back is the chart of the table after
    the insertion; in it the cell (r, c), open before, is occupied and every
    other cell reads as before.  It is confirmed whenever the generated code
    is new.  Whatever the request, an answer that is not a confirmation
    leaves the store as it was. *)
Theorem booking_inserts_one_row (env : Env) (req : Request) (w : World)
    (r c : Z) :
  seat_ok r c → booking_attempt req r c →
  count_seat (reservations w) r c = 0 →
  (generate_reservation_code (rng env) 8 ∉ tickets w →
   is_success (reserve_seat env req w).1)
  ∧ (is_success (reserve_seat env req w).1 →
     ∃ new msg,
       reservations (reserve_seat env req w).2 = (reservations w ++ [new])%list
       ∧ length (reservations (reserve_seat env req w).2)
         = S (length (reservations w))
       ∧ at_seat r c new
       ∧ admins (reserve_seat env req w).2 = admins w
       ∧ session (reserve_seat env req w).2 = session w
       ∧ (reserve_seat env req w).1
         = Return (render_reserve None (Some msg)
                     (build_seating_chart
                        (reservations (reserve_seat env req w).2)))
       ∧ chart_cell (build_seating_chart (reservations w))
           (Z.to_nat r) (Z.to_nat c) = Some "O"
       ∧ ∀ i j : Z, seat_ok i j →
           chart_cell
             (build_seating_chart (reservations (reserve_seat env req w).2))
             (Z.to_nat i) (Z.to_nat j)
           = if decide (i = r ∧ j = c) then Some "X"
             else chart_cell (build_seating_chart (reservations w))
                    (Z.to_nat i) (Z.to_nat j))
  ∧ (∀ env' req' w',
       ¬ is_success (reserve_seat env' req' w').1 →
       (reserve_seat env' req' w').2 = w').
Proof.
  intros Hok Hattempt Hfree.
  apply count_seat_zero in Hfree as Hno.
  pose proof (proj2 (filter_nil_Exists _ _) Hno) as Hnil.
  rewrite (reserve_seat_attempt env req w r c Hattempt Hok).
  rewrite Hnil. simpl.
  split; [|split].
  - intros Hnew. rewrite bool_decide_eq_false_2 by done.
    by eexists _, _.
  - destruct (decide (generate_reservation_code (rng env) 8 ∈ tickets w))
      as [Hdup|Hnew].
    { rewrite bool_decide_eq_true_2 by done. simpl.
      intros (msg & s & H). discriminate H. }
    rewrite bool_decide_eq_false_2 by done. simpl. intros _.
    exists (new_reservation env req w r c). eexists.
    split_and!; try done.
    + rewrite length_app. simpl. lia.
    + rewrite chart_cell_build by done. by rewrite decide_False.
    + intros i j Hij. rewrite chart_cell_snoc by done.
      apply decide_ext. unfold at_seat, new_reservation. simpl.
      split; intros [-> ->]; done.
  - intros env' req' w' Hfail.
    destruct (reserve_seat_cases env' req' w') as [[_ Hsame]|Hbooked];
      [done|].
    destruct Hbooked as (r' & c' & _ & _ & _ & _ & Hrun).
    exfalso. apply Hfail. rewrite Hrun. by eexists _, _.
Qed.

(** ** Validation of the seat input *)

Lemma int_raises (s : string) (e : PyExc) :
  Py.int s = Raise e → e = ValueError.
Proof.
  unfold Py.int. destruct (Py.int_value s); congruence.
Qed.

Lemma parse_seat_fields (req : Request) :
  match parse_seat req with
  | Return (r, c) =>
      seat_field req "seat_row" = Some r
      ∧ seat_field req "seat_column" = Some c
  | Raise e =>
      is_KeyError_or_ValueError e = true
      ∧ (seat_field req "seat_row" = None
         ∨ seat_field req "seat_column" = None)
  end.
Proof.
  unfold parse_seat, seat_field, form_getitem.
  destruct (form req !! "seat_row") as [sr|]; simpl; [|by auto].
  destruct (Py.int sr) as [r|e] eqn:Hr; simpl.
  2: { apply int_raises in Hr as ->. by auto. }
  destruct (form req !! "seat_column") as [sc|]; simpl; [|by auto].
  destruct (Py.int sc) as [c|e] eqn:Hc; simpl; [done|].
  apply int_raises in Hc as ->. by auto.
Qed.

Lemma reserve_seat_bad_seat (env : Env) (req : Request) (w : World) :
  method req = "POST" →
  is_Some (form req !! "first_name") → is_Some (form req !! "last_name") →
  bad_seat_input req →
  reserve_seat env req w
  = (Return (render_reserve (Some (seat_error req)) None
               (build_seating_chart (reservations w))), w).
Proof.
  intros Hpost [fn Hfn] [ln Hln] Hbad.
  unfold reserve_seat. flask_unfold.
  rewrite bool_decide_eq_true_2 by done.
  unfold form_getitem. rewrite Hfn, Hln. simpl.
  pose proof (parse_seat_fields req) as Hparse.
  unfold bad_seat_input in Hbad. unfold seat_error.
  destruct (parse_seat req) as [[r c]|e].
  - destruct Hparse as [Hr Hc]. rewrite Hr, Hc in Hbad |- *.
    rewrite seat_ok_test in Hbad. apply not_true_is_false in Hbad.
    by rewrite Hbad.
  - destruct Hparse as [-> Hnone].
    by destruct Hnone as [-> | ->]; [|destruct (seat_field req "seat_row")].
Qed.

Lemma reserve_seat_missing_name (env : Env) (req : Request) (w : World) :
  method req = "POST" →
  (form req !! "first_name" = None →
   reserve_seat env req w = (Raise (BadRequestKeyError "first_name"), w))
  ∧ (is_Some (form req !! "first_name") → form req !! "last_name" = None →
     reserve_seat env req w = (Raise (BadRequestKeyError "last_name"), w)).
Proof.
  intros Hpost. unfold reserve_seat. flask_unfold.
  rewrite bool_decide_eq_true_2 by done. unfold form_getitem. split.
  - by intros ->.
  - by intros [fn ->] ->.
Qed.

(** C3, as the code has it: a submitted form whose seat input is rejected
    never changes the store; when the form carries both names the answer
    is the booking page with the validation message ("must be numbers" for
    a missing or unreadable field, "invalid seat" for a seat off the grid)
    and the chart of the unchanged store; when a name is missing the view
    ends in the [BadRequestKeyError] of that name instead. *)
Theorem bad_seat_rejected (env : Env) (req : Request) (w : World) :
  method req = "POST" → bad_seat_input req →
  (reserve_seat env req w).2 = w
  ∧ ¬ is_success (reserve_seat env req w).1
  ∧ (is_Some (form req !! "first_name") →
     is_Some (form req !! "last_name") →
     is_validation_error (reserve_seat env req w).1
     ∧ (reserve_seat env req w).1
       = Return (render_reserve (Some (seat_error req)) None
                   (build_seating_chart (reservations w))))
  ∧ (form req !! "first_name" = None →
     (reserve_seat env req w).1 = Raise (BadRequestKeyError "first_name"))
  ∧ (is_Some (form req !! "first_name") → form req !! "last_name" = None →
     (reserve_seat env req w).1 = Raise (BadRequestKeyError "last_name")).
Proof.
  intros Hpost Hbad.
  assert (¬ is_success (reserve_seat env req w).1) as Hfail.
  { destruct (reserve_seat_cases env req w) as [[Hfail _]|Hbooked]; [done|].
    destruct Hbooked as (r & c & (_ & _ & _ & Hparse) & Hok & _).
    pose proof (parse_seat_fields req) as Hfields.
    rewrite Hparse in Hfields. destruct Hfields as [Hr Hc].
    unfold bad_seat_input in Hbad. by rewrite Hr, Hc in Hbad. }
  destruct (reserve_seat_missing_name env req w Hpost) as [Hfirst Hlast].
  split_and!; [|done| | |].
  - destruct (reserve_seat_cases env req w) as [[_ Hsame]|Hbooked]; [done|].
    destruct Hbooked as (r & c & _ & _ & _ & _ & Hrun).
    exfalso. apply Hfail. rewrite Hrun. by eexists _, _.
  - intros Hfn Hln.
    rewrite (reserve_seat_bad_seat env req w Hpost Hfn Hln Hbad). simpl.
    split; [|done].
    exists (build_seating_chart (reservations w)). unfold seat_error.
    destruct (seat_field req "seat_row"); [|by left].
    destruct (seat_field req "seat_column"); [by right|by left].
  - intros Hnone. by rewrite Hfirst.
  - intros Hfn Hnone. by rewrite Hlast.
Qed.

(** ** The admin flows *)

Lemma filter_all {A} (P : A → Prop) `{!∀ x, Decision (P x)} (l : list A) :
  Forall P l → filter P l = l.
Proof.
  induction 1 as [|x l Hx _ IH]; [done|].
  by rewrite filter_cons_True, IH.
Qed.

Lemma filter_id_none (rs : list Reservation) (res_id : Z) :
  filter (λ r, id r = res_id) rs = [] →
  filter (λ r, id r ≠ res_id) rs = rs.
Proof.
  intros Hnil. apply filter_all, Forall_forall. intros x Hx Heq.
  by eapply (filter_nil_not_elem_of (λ r, id r = res_id)).
Qed.

Lemma delete_reservation_anonymous (res_id : Z) (w : World) :
  ¬ logged_in w →
  delete_reservation res_id w = (Return (redirect "admin_login"), w).
Proof.
  intros Hno. unfold delete_reservation. flask_unfold.
  by rewrite bool_decide_eq_false_2.
Qed.

Lemma delete_reservation_world (res_id : Z) (w : World) :
  logged_in w →
  (delete_reservation res_id w).2
  = mkWorld (filter (λ r, id r ≠ res_id) (reservations w))
      (admins w) (session w).
Proof.
  intros Hin. unfold delete_reservation. flask_unfold.
  rewrite bool_decide_eq_true_2 by done. simpl.
  destruct (head (filter (λ r, id r = res_id) (reservations w)))
    as [r|] eqn:Hget.
  - apply head_Some_elem_of, list_elem_of_filter in Hget as [-> _]. done.
  - apply head_None in Hget. rewrite (filter_id_none _ _ Hget).
    destruct (decide (sqlite_integer res_id)); by destruct w.
Qed.

Lemma delete_reservation_logged_in (res_id : Z) (w : World) :
  logged_in w →
  sqlite_integer res_id ∨ (∃ r, r ∈ reservations w ∧ id r = res_id) →
  delete_reservation res_id w
  = (Return (redirect "admin_dashboard"),
     mkWorld (filter (λ r, id r ≠ res_id) (reservations w))
       (admins w) (session w)).
Proof.
  intros Hin Hfound.
  rewrite <- (delete_reservation_world res_id w Hin).
  unfold delete_reservation. flask_unfold.
  rewrite bool_decide_eq_true_2 by done. simpl.
  destruct (head (filter (λ r, id r = res_id) (reservations w)))
    as [r|] eqn:Hget; [done|].
  destruct (decide (sqlite_integer res_id)) as [|Hbig]; [done|].
  destruct Hfound as [|(r & Hr & Hid)]; [done|].
  apply head_None in Hget.
  by destruct (filter_nil_not_elem_of _ _ r Hget Hid).
Qed.

Lemma delete_reservation_overflow (res_id : Z) (w : World) :
  logged_in w → ¬ sqlite_integer res_id →
  (∀ r, r ∈ reservations w → id r ≠ res_id) →
  delete_reservation res_id w = (Raise OverflowError, w).
Proof.
  intros Hin Hbig Hnone. unfold delete_reservation. flask_unfold.
  rewrite bool_decide_eq_true_2 by done. simpl.
  destruct (head (filter (λ r, id r = res_id) (reservations w)))
    as [r|] eqn:Hget.
  - apply head_Some_elem_of, list_elem_of_filter in Hget as [Hid Hr].
    by destruct (Hnone r Hr).
  - by rewrite decide_False.
Qed.

Lemma admin_login_frame (req : Request) (w : World) :
  reservations (admin_login req w).2 = reservations w
  ∧ admins (admin_login req w).2 = admins w.
Proof.
  unfold admin_login. flask_unfold. unfold form_getitem.
  destruct (bool_decide (method req = "POST")); [|done].
  destruct (form req !! "username"); [|done].
  destruct (form req !! "password"); [|done]. simpl.
  by destruct (head _).
Qed.

Lemma admin_login_match (req : Request) (w : World) (u p : string)
    (a : Admin) :
  method req = "POST" →
  form req !! "username" = Some u → form req !! "password" = Some p →
  a ∈ admins w → username a = Py.strip u → password a = Py.strip p →
  admin_login req w
  = (Return (redirect "admin_dashboard"),
     mkWorld (reservations w) (admins w)
       (<["admin_username" := Py.strip u]> (session w))).
Proof.
  intros Hpost Hu Hp Ha Hname Hpass.
  unfold admin_login. flask_unfold. unfold form_getitem.
  rewrite bool_decide_eq_true_2 by done. rewrite Hu, Hp. simpl.
  destruct (head (filter _ (admins w))) as [a'|] eqn:Hfirst.
  - apply head_Some_elem_of, list_elem_of_filter in Hfirst as [[-> _] _].
    done.
  - apply head_None in Hfirst. exfalso.
    by eapply (filter_nil_not_elem_of _ _ a Hfirst).
Qed.

(** ** One seat, one reservation *)

Lemma seat_unique_snoc (rs : list Reservation) (x : Reservation) :
  seat_unique rs →
  head (filter (at_seat (seatRow x) (seatColumn x)) rs) = None →
  seat_unique (rs ++ [x]).
Proof.
  unfold seat_unique. intros Hdup Hfree. rewrite fmap_app. simpl.
  apply NoDup_app. split; [done|]. split; [|apply NoDup_singleton].
  intros seat (y & -> & Hy)%list_elem_of_fmap Hx%list_elem_of_singleton.
  apply head_None in Hfree.
  eapply (filter_nil_not_elem_of _ _ y Hfree); [|done].
  unfold at_seat. by simplify_eq.
Qed.

Lemma seat_unique_filter (P : Reservation → Prop) `{!∀ x, Decision (P x)}
    (rs : list Reservation) :
  seat_unique rs → seat_unique (filter P rs).
Proof.
  unfold seat_unique. intros Hdup.
  eapply sublist_NoDup; [done|]. apply fmap_sublist, sublist_filter.
Qed.

Lemma seat_unique_count (rs : list Reservation) (r c : Z) :
  seat_unique rs → count_seat rs r c ≤ 1.
Proof.
  unfold seat_unique, count_seat.
  induction rs as [|x rs IH]; simpl; [lia|].
  rewrite NoDup_cons. intros [Hx Hdup]. rewrite filter_cons.
  destruct (decide (at_seat r c x)) as [[Hr Hc]|_]; [|by apply IH].
  simpl. replace (filter (at_seat r c) rs) with (@nil Reservation); [done|].
  symmetry. apply filter_nil_Exists. rewrite Exists_exists.
  intros (y & Hy & Hr' & Hc'). apply Hx.
  apply list_elem_of_fmap. exists y. split; [congruence|done].
Qed.

Lemma step_seat_unique (w : World) (c : Call) :
  seat_unique (reservations w) → seat_unique (reservations (step w c)).
Proof.
  intros Hdup. unfold step. destruct c as [|env req|req| |res_id|]; simpl.
  - done.
  - destruct (reserve_seat_cases env req w) as [[_ ->]|Hbooked]; [done|].
    destruct Hbooked as (r & c & _ & _ & Hfree & _ & ->). simpl.
    by apply seat_unique_snoc.
  - by rewrite (proj1 (admin_login_frame req w)).
  - destruct (decide (logged_in w)) as [Hin|Hno].
    + by rewrite admin_dashboard_logged_in.
    + by rewrite admin_dashboard_anonymous.
  - destruct (decide (logged_in w)) as [Hin|Hno].
    + rewrite delete_reservation_world by done. simpl.
      by apply seat_unique_filter.
    + by rewrite delete_reservation_anonymous.
  - done.
Qed.

Lemma run_seat_unique (w : World) (cs : list Call) :
  seat_unique (reservations w) → seat_unique (reservations (run w cs)).
Proof.
  revert w. induction cs as [|c cs IH]; intros w Hdup; simpl; [done|].
  by apply IH, step_seat_unique.
Qed.

Lemma reserve_seat_taken (env : Env) (req : Request) (w : World) (r c : Z) :
  seat_ok r c → booking_attempt req r c →
  Exists (at_seat r c) (reservations w) →
  reserve_seat env req w
  = (Return (render_reserve (Some msg_seat_taken) None
               (build_seating_chart (reservations w))), w).
Proof.
  intros Hok Hattempt Htaken.
  rewrite (reserve_seat_attempt env req w r c Hattempt Hok).
  destruct (head (filter (at_seat r c) (reservations w))) eqn:Hhead; [done|].
  apply head_None, filter_nil_Exists in Hhead. done.
Qed.

Lemma count_seat_taken (rs : list Reservation) (r c : Z) :
  seat_unique rs → Exists (at_seat r c) rs → count_seat rs r c = 1.
Proof.
  intros Hdup Htaken. pose proof (seat_unique_count rs r c Hdup) as Hle.
  destruct (count_seat rs r c) as [|n] eqn:Hcount; [|lia].
  by apply count_seat_zero in Hcount.
Qed.

(** C4: when seat (r, c) is already reserved, a further booking attempt for
    it is answered with the "already reserved" error and the store is left
    as it was, holding exactly one reservation for the seat; this is so in
    particular for a second attempt after a confirmed first one.  From a
    store with at most one reservation per seat (the empty one, say) every
    sequence of requests leads to a store with at most one per seat. *)
Theorem second_booking_conflicts (env : Env) (req : Request) (w : World)
    (r c : Z) :
  seat_ok r c → booking_attempt req r c →
  seat_unique (reservations w) →
  Exists (at_seat r c) (reservations w) →
  reserve_seat env req w
  = (Return (render_reserve (Some msg_seat_taken) None
               (build_seating_chart (reservations w))), w)
  ∧ count_seat (reservations w) r c = 1
  ∧ (∀ env1 req1 w0,
       seat_unique (reservations w0) → booking_attempt req1 r c →
       is_success (reserve_seat env1 req1 w0).1 →
       let w1 := (reserve_seat env1 req1 w0).2 in
       reserve_seat env req w1
       = (Return (render_reserve (Some msg_seat_taken) None
                    (build_seating_chart (reservations w1))), w1)
       ∧ count_seat (reservations w1) r c = 1)
  ∧ (∀ cs r' c', count_seat (reservations (run w cs)) r' c' ≤ 1)
  ∧ (∀ w0 cs r' c',
       reservations w0 = [] →
       count_seat (reservations (run w0 cs)) r' c' ≤ 1).
Proof.
  intros Hok Hattempt Hdup Htaken. split_and!.
  - by apply (reserve_seat_taken env req w r c).
  - by apply count_seat_taken.
  - intros env1 req1 w0 Hdup0 Hattempt1 Hsucc w1.
    assert (seat_unique (reservations w1)
            ∧ Exists (at_seat r c) (reservations w1)) as [Hdup1 Htaken1].
    { subst w1.
      destruct (reserve_seat_cases env1 req1 w0) as [[Hfail _]|Hbooked];
        [done|].
      destruct Hbooked as (r' & c' & (_ & _ & _ & Hparse) & _ & Hfree & _ & ->).
      destruct Hattempt1 as (_ & _ & _ & Hparse1).
      rewrite Hparse1 in Hparse. simplify_eq. simpl. split.
      - by apply seat_unique_snoc.
      - apply Exists_app. right. by constructor. }
    split.
    + by apply (reserve_seat_taken env req w1 r c).
    + by apply count_seat_taken.
  - intros cs r' c'. by apply seat_unique_count, run_seat_unique.
  - intros w0 cs r' c' Hempty. apply seat_unique_count, run_seat_unique.
    rewrite Hempty. apply NoDup_nil_2.
Qed.

(** C5: with an admin session the dashboard shows as total the sum of the
    prices of all reservations of the store (the loop of
    [calculate_total_sales] is that sum); for reservations on the grid that
    is the sum of the column prices; after bookings of (1,1) and (1,3) in an
    empty store it is 150. *)
Theorem dashboard_total_sales (w : World) :
  logged_in w →
  (∀ rs, calculate_total_sales rs = sum_Z <$> all_prices rs)
  ∧ (∀ ps, all_prices (reservations w) = Return ps →
       ∃ seating rows,
         admin_dashboard w
         = (Return (render_admin seating (sum_Z ps) rows), w))
  ∧ (Forall (λ r, seat_ok (seatRow r) (seatColumn r)) (reservations w) →
     ∃ seating rows,
       admin_dashboard w
       = (Return (render_admin seating
                    (sum_Z ((λ r, spec_price (seatColumn r))
                              <$> reservations w)) rows), w))
  ∧ (∀ env1 req1 env2 req2,
       reservations w = [] →
       booking_attempt req1 1 1 → booking_attempt req2 1 3 →
       generate_reservation_code (rng env1) 8
       ≠ generate_reservation_code (rng env2) 8 →
       let w2 := run w [call_reserve_seat env1 req1;
                        call_reserve_seat env2 req2] in
       length (reservations w2) = 2
       ∧ ∃ seating rows,
           admin_dashboard w2
           = (Return (render_admin seating 150 rows), w2)).
Proof.
  intros Hin.
  assert (∀ w', logged_in w' → ∀ ps,
            all_prices (reservations w') = Return ps →
            ∃ seating rows,
              admin_dashboard w'
              = (Return (render_admin seating (sum_Z ps) rows), w'))
    as Hdash.
  { intros w' Hin' ps Hps. rewrite admin_dashboard_logged_in by done.
    rewrite Hps. by eexists _, _. }
  split_and!.
  - intros rs. unfold calculate_total_sales.
    rewrite total_sales_loop_spec. by destruct (all_prices rs).
  - by apply Hdash.
  - intros Hrange. apply Hdash; [done|]. by apply all_prices_in_range.
  - intros env1 req1 env2 req2 Hempty Hreq1 Hreq2 Hcodes w2.
    assert (seat_ok 1 1 ∧ seat_ok 1 3) as [Hok1 Hok2]
      by (unfold seat_ok; lia).
    subst w2. unfold run, step. simpl.
    rewrite (reserve_seat_attempt env1 req1 w 1 1 Hreq1 Hok1).
    unfold tickets. rewrite Hempty. simpl.
    rewrite (reserve_seat_attempt env2 req2 _ 1 3 Hreq2 Hok2).
    unfold tickets. simpl.
    rewrite bool_decide_eq_false_2; cycle 1.
    { rewrite list_elem_of_singleton. congruence. }
    simpl. split; [done|].
    match goal with
    | |- ∃ _ _, admin_dashboard ?w2 = _ =>
        apply (Hdash w2 Hin [100; 50]%Z)
    end.
    reflexivity.
Qed.

(** C6, as the code has it: with an admin session, deleting by an
    identifier SQLite can hold (below 2^63) always answers with the
    redirect to the dashboard; a reservation with that identifier is gone
    afterwards, and when there is none the store is left exactly as it was,
    without any error. *)
Theorem delete_removes_or_noop (res_id : Z) (w : World) :
  logged_in w → sqlite_integer res_id →
  (delete_reservation res_id w).1 = Return (redirect "admin_dashboard")
  ∧ status_code (delete_reservation res_id w).1 = 302
  ∧ (∀ r, r ∈ reservations w → id r = res_id →
       r ∉ reservations (delete_reservation res_id w).2)
  ∧ (∀ r, r ∈ reservations (delete_reservation res_id w).2 → id r ≠ res_id)
  ∧ ((∀ r, r ∈ reservations w → id r ≠ res_id) →
     (delete_reservation res_id w).2 = w).
Proof.
  intros Hin Hrange.
  rewrite (delete_reservation_logged_in res_id w Hin (or_introl Hrange)).
  simpl. split_and!; try done.
  - intros r _ Hid [Hne _]%list_elem_of_filter. done.
  - by intros r [Hne _]%list_elem_of_filter.
  - intros Hnone. rewrite filter_all; [by destruct w|].
    by apply Forall_forall.
Qed.

Lemma length_filter_other_ids (rs : list Reservation) (res_id : Z) :
  NoDup (id <$> rs) → (∃ r, r ∈ rs ∧ id r = res_id) →
  length (filter (λ r, id r ≠ res_id) rs) + 1 = length rs.
Proof.
  induction rs as [|x rs IH]; simpl.
  - intros _ (r & Hr & _). by apply elem_of_nil in Hr.
  - rewrite NoDup_cons. intros [Hx Hdup] (r & Hr & Hid).
    destruct (decide (id x = res_id)) as [Heq|Hne].
    + rewrite filter_cons_False by (intros Hne; by apply Hne).
      rewrite filter_all; [lia|]. apply Forall_forall. intros y Hy Hy'.
      apply Hx. rewrite Heq, <- Hy'. by apply list_elem_of_fmap_2.
    + rewrite filter_cons_True by done. simpl.
      apply elem_of_cons in Hr as [-> | Hr]; [done|].
      rewrite <- IH; [lia|done|by exists r].
Qed.

(** C10: with an admin session, deleting an existing identifier removes
    the reservation with that identifier and nothing else: the other rows
    stay, in their order, the admins and the session are untouched; as the
    identifier is a primary key, exactly one row goes. *)
Theorem delete_only_that_reservation (res_id : Z) (w : World) :
  logged_in w → (∃ r, r ∈ reservations w ∧ id r = res_id) →
  reservations (delete_reservation res_id w).2
  = filter (λ r, id r ≠ res_id) (reservations w)
  ∧ (∀ x, x ∈ reservations (delete_reservation res_id w).2
          ↔ x ∈ reservations w ∧ id x ≠ res_id)
  ∧ reservations (delete_reservation res_id w).2
    `sublist_of` reservations w
  ∧ admins (delete_reservation res_id w).2 = admins w
  ∧ session (delete_reservation res_id w).2 = session w
  ∧ (NoDup (id <$> reservations w) →
     length (reservations (delete_reservation res_id w).2) + 1
     = length (reservations w)).
Proof.
  intros Hin Hex.
  rewrite (delete_reservation_logged_in res_id w Hin (or_intror Hex)). simpl.
  split_and!; try done.
  - intros x. rewrite list_elem_of_filter. tauto.
  - apply sublist_filter.
  - intros Hkey. by apply length_filter_other_ids.
Qed.

(** C7: without the session key the dashboard answers with the redirect
    to the login page, so whenever it is rendered the key is there; a login
    whose trimmed username and password are those of a stored admin sets
    the key and redirects to the dashboard, which from then on is not
    redirected any more and is rendered for a store of seats on the grid. *)
Theorem dashboard_needs_session (w : World) (req : Request) (u p : string)
    (a : Admin) :
  method req = "POST" →
  form req !! "username" = Some u → form req !! "password" = Some p →
  a ∈ admins w → username a = Py.strip u → password a = Py.strip p →
  (∀ w0, ¬ logged_in w0 →
     admin_dashboard w0 = (Return (redirect "admin_login"), w0))
  ∧ (∀ w0 seating total rows,
       (admin_dashboard w0).1 = Return (render_admin seating total rows) →
       logged_in w0)
  ∧ (admin_login req w).1 = Return (redirect "admin_dashboard")
  ∧ logged_in (admin_login req w).2
  ∧ session (admin_login req w).2 !! "admin_username" = Some (username a)
  ∧ reservations (admin_login req w).2 = reservations w
  ∧ (admin_dashboard (admin_login req w).2).1
    ≠ Return (redirect "admin_login")
  ∧ (Forall (λ r, seat_ok (seatRow r) (seatColumn r)) (reservations w) →
     ∃ seating total rows,
       admin_dashboard (admin_login req w).2
       = (Return (render_admin seating total rows), (admin_login req w).2)).
Proof.
  intros Hpost Hu Hp Ha Hname Hpass.
  rewrite (admin_login_match req w u p a) by done. simpl.
  assert (logged_in (mkWorld (reservations w) (admins w)
                       (<["admin_username" := Py.strip u]> (session w))))
    as Hin.
  { unfold logged_in. simpl. apply elem_of_dom.
    rewrite lookup_insert_eq. by eexists. }
  split_and!; try done.
  - apply admin_dashboard_anonymous.
  - intros w0 seating total rows Hrender.
    destruct (decide (logged_in w0)) as [|Hno]; [done|].
    by rewrite admin_dashboard_anonymous in Hrender.
  - rewrite lookup_insert_eq. by rewrite Hname.
  - rewrite admin_dashboard_logged_in by done. simpl.
    by destruct (all_prices (reservations w)).
  - intros Hrange. rewrite admin_dashboard_logged_in by done. simpl.
    rewrite all_prices_in_range by done. by eexists _, _, _.
Qed.

(** ** More on the seating chart *)

Lemma mark_seat_off_grid (g : list (list string)) (x : Reservation) :
  ¬ on_grid x → mark_seat g x = g.
Proof.
  intros Hoff. unfold mark_seat.
  destruct (_ && _)%bool eqn:Htest; [|done].
  exfalso. apply Hoff. revert Htest.
  rewrite !andb_true_iff, !Z.leb_le, !Z.ltb_lt.
  unfold on_grid, seat_ok. lia.
Qed.

Lemma foldl_mark_seat_filter (rs : list Reservation) (g : list (list string)) :
  foldl mark_seat g (filter on_grid rs) = foldl mark_seat g rs.
Proof.
  revert g. induction rs as [|x rs IH]; intros g; [done|].
  rewrite filter_cons. destruct (decide (on_grid x)) as [Hon|Hoff]; simpl.
  - apply IH.
  - rewrite (mark_seat_off_grid g x Hoff). apply IH.
Qed.

(** X1: The bound check of the marking loop: rows whose seat is off the grid
    leave no trace in the chart. *)
Theorem chart_ignores_off_grid (rs : list Reservation) :
  build_seating_chart (filter on_grid rs) = build_seating_chart rs.
Proof.
  unfold build_seating_chart, seat_grid.
  by rewrite foldl_mark_seat_filter.
Qed.

Lemma grid_ext (g1 g2 : list (list string)) :
  grid_ok g1 → grid_ok g2 →
  (∀ i j, i < 12 → j < 4 → grid_cell g1 i j = grid_cell g2 i j) →
  g1 = g2.
Proof.
  intros [Hlen1 Hrows1] [Hlen2 Hrows2] Hcells.
  apply list_eq. intros i.
  destruct (decide (i < 12)) as [Hi|Hi]; cycle 1.
  { rewrite !lookup_ge_None_2; [done|lia|lia]. }
  destruct (lookup_lt_is_Some_2 g1 i) as [r1 Hr1]; [lia|].
  destruct (lookup_lt_is_Some_2 g2 i) as [r2 Hr2]; [lia|].
  rewrite Hr1, Hr2. f_equal.
  assert (length r1 = 4 ∧ length r2 = 4) as [Hl1 Hl2].
  { rewrite Forall_forall in Hrows1, Hrows2. split.
    - apply (Hrows1 r1). by eapply list_elem_of_lookup_2.
    - apply (Hrows2 r2). by eapply list_elem_of_lookup_2. }
  apply list_eq. intros j.
  destruct (decide (j < 4)) as [Hj|Hj]; cycle 1.
  { rewrite !lookup_ge_None_2; [done|lia|lia]. }
  specialize (Hcells i j Hi Hj). unfold grid_cell in Hcells.
  by rewrite Hr1, Hr2 in Hcells.
Qed.

(** X2: The chart is a function of the set of reserved seats on the grid:
    neither the order of the rows nor repeated seats show in it. *)
Theorem chart_determined_by_seats (rs rs' : list Reservation) :
  (∀ r c, seat_ok r c →
          Exists (at_seat r c) rs ↔ Exists (at_seat r c) rs') →
  build_seating_chart rs = build_seating_chart rs'.
Proof.
  intros Hsame.
  change (render_grid (seat_grid rs) = render_grid (seat_grid rs')).
  f_equal. apply grid_ext; [apply seat_grid_ok..|].
  intros i j Hi Hj. rewrite !grid_cell_seat_grid by done.
  f_equal. apply decide_ext, Hsame. unfold seat_ok. lia.
Qed.



(** ** More on the booking flow *)

(** X4: A request that is not a POST only shows the form: the chart of the
    store as it is, no message, nothing stored, whatever the form holds. *)
Theorem viewing_the_form_books_nothing (env : Env) (req : Request)
    (w : World) :
  method req ≠ "POST" →
  reserve_seat env req w
  = (Return (render_reserve None None
               (build_seating_chart (reservations w))), w).
Proof.
  intros Hget. unfold reserve_seat. flask_unfold.
  by rewrite bool_decide_eq_false_2.
Qed.

(** X5: A generated code that is already the ticket number of a stored row:
    the commit fails on the UNIQUE column, the view ends in the unhandled
    [IntegrityError] and nothing is stored, although the seat was free. *)
Theorem code_collision_aborts (env : Env) (req : Request) (w : World)
    (r c : Z) :
  seat_ok r c → booking_attempt req r c →
  count_seat (reservations w) r c = 0 →
  generate_reservation_code (rng env) 8 ∈ tickets w →
  reserve_seat env req w = (Raise IntegrityError, w)
  ∧ status_code (reserve_seat env req w).1 = 500.
Proof.
  intros Hok Hattempt Hfree Hdup.
  apply count_seat_zero in Hfree.
  pose proof (proj2 (filter_nil_Exists _ _) Hfree) as Hnil.
  rewrite (reserve_seat_attempt env req w r c Hattempt Hok).
  rewrite Hnil. simpl. by rewrite bool_decide_eq_true_2.
Qed.



(** ** What one request can do to the store *)

Lemma admin_login_session (req : Request) (w : World) :
  session (admin_login req w).2 = session w
  ∨ (∃ a, method req = "POST" ∧ a ∈ admins w ∧ credentials_match req a
          ∧ (admin_login req w).1 = Return (redirect "admin_dashboard")
          ∧ session (admin_login req w).2
            = <["admin_username" := username a]> (session w)).
Proof.
  unfold admin_login. flask_unfold. unfold form_getitem.
  destruct (decide (method req = "POST")) as [Hpost|Hget]; cycle 1.
  { left. by rewrite bool_decide_eq_false_2. }
  rewrite bool_decide_eq_true_2 by done.
  destruct (form req !! "username") as [u|] eqn:Hu; [|by left].
  destruct (form req !! "password") as [p|] eqn:Hp; [|by left]. simpl.
  destruct (head (filter _ (admins w))) as [a|] eqn:Hfirst; [|by left].
  right. exists a.
  apply head_Some_elem_of, list_elem_of_filter in Hfirst as [[Hname Hpass] Ha].
  split_and!; try done. by exists u, p.
Qed.

(** The three things a request can do to table [reservations]: nothing,
    append the row of a confirmed booking, or delete by identifier under an
    admin session. *)
Lemma step_cases (w : World) (c : Call) :
  admins (step w c) = admins w
  ∧ (reservations (step w c) = reservations w
     ∨ (∃ env req r k,
          c = call_reserve_seat env req
          ∧ booking_attempt req r k ∧ seat_ok r k
          ∧ head (filter (at_seat r k) (reservations w)) = None
          ∧ (generate_reservation_code (rng env) 8 ∉ tickets w)
          ∧ reservations (step w c)
            = (reservations w ++ [new_reservation env req w r k])%list)
     ∨ (∃ res_id,
          c = call_delete_reservation res_id ∧ logged_in w
          ∧ reservations (step w c)
            = filter (λ x, id x ≠ res_id) (reservations w))).
Proof.
  unfold step. destruct c as [|env req|req| |res_id|]; simpl.
  - by split; [|left].
  - destruct (reserve_seat_cases env req w) as [[_ ->]|Hbooked];
      [by split; [|left]|].
    destruct Hbooked as (r & k & Hattempt & Hok & Hfree & Hnew & ->). simpl.
    split; [done|]. right. left. by exists env, req, r, k.
  - destruct (admin_login_frame req w) as [-> ->]. by split; [|left].
  - destruct (decide (logged_in w)) as [Hin|Hno].
    + rewrite admin_dashboard_logged_in by done. by split; [|left].
    + rewrite admin_dashboard_anonymous by done. by split; [|left].
  - destruct (decide (logged_in w)) as [Hin|Hno].
    + rewrite delete_reservation_world by done. simpl.
      split; [done|]. right. right. by exists res_id.
    + rewrite delete_reservation_anonymous by done. by split; [|left].
  - by split; [|left].
Qed.

Lemma max_id_bound (rs : list Reservation) (x : Reservation) :
  x ∈ rs → ∃ m, Db.max_id rs = Some m ∧ (id x ≤ m)%Z.
Proof.
  induction rs as [|y rs IH]; [by intros ?%elem_of_nil|].
  intros [-> | Hx]%elem_of_cons; simpl.
  - destruct (Db.max_id rs) as [m|]; eexists; (split; [done|lia]).
  - destruct (IH Hx) as (m & -> & Hle). eexists. split; [done|lia].
Qed.

Lemma next_id_fresh (rs : list Reservation) (x : Reservation) :
  x ∈ rs → (id x < Db.next_id rs)%Z.
Proof.
  intros Hx. unfold Db.next_id.
  destruct (max_id_bound rs x Hx) as (m & -> & Hle). lia.
Qed.

Lemma NoDup_fmap_filter {A B} (f : A → B) (P : A → Prop)
    `{!∀ x, Decision (P x)} (l : list A) :
  NoDup (f <$> l) → NoDup (f <$> filter P l).
Proof.
  intros Hdup. eapply sublist_NoDup; [done|].
  apply fmap_sublist, sublist_filter.
Qed.

Lemma step_keys_unique (w : World) (c : Call) :
  keys_unique w → keys_unique (step w c).
Proof.
  intros [Hids Htickets]. unfold keys_unique, tickets in *.
  destruct (step_cases w c) as [_ [-> | [Hbooked | Hdeleted]]]; [done| |].
  - destruct Hbooked as (env & req & r & k & _ & _ & _ & _ & Hnew & ->).
    rewrite !fmap_app. simpl. split.
    + apply NoDup_app. split; [done|]. split; [|apply NoDup_singleton].
      intros i (x & -> & Hx)%list_elem_of_fmap Hi%list_elem_of_singleton.
      pose proof (next_id_fresh _ x Hx). lia.
    + apply NoDup_app. split; [done|]. split; [|apply NoDup_singleton].
      by intros t Ht ->%list_elem_of_singleton.
  - destruct Hdeleted as (res_id & _ & _ & ->).
    split; by apply NoDup_fmap_filter.
Qed.

(** X7: Identifiers and ticket numbers stay pairwise distinct through every
    sequence of requests: a booking takes an identifier above all stored
    ones and is only committed with a code no stored row has. *)
Theorem store_keys_stay_unique (w : World) (cs : list Call) :
  keys_unique w → keys_unique (run w cs).
Proof.
  revert w. induction cs as [|c cs IH]; intros w Hkeys; simpl; [done|].
  by apply IH, step_keys_unique.
Qed.

(** X8: No request touches table [admins]. *)
Theorem admins_never_change (w : World) (cs : list Call) :
  admins (run w cs) = admins w.
Proof.
  revert w. induction cs as [|c cs IH]; intros w; simpl; [done|].
  rewrite IH. apply step_cases.
Qed.

Lemma step_on_grid (w : World) (c : Call) :
  Forall on_grid (reservations w) → Forall on_grid (reservations (step w c)).
Proof.
  intros Hgrid.
  destruct (step_cases w c) as [_ [-> | [Hbooked | Hdeleted]]]; [done| |].
  - destruct Hbooked as (env & req & r & k & _ & _ & Hok & _ & _ & ->).
    apply Forall_app. split; [done|]. by constructor.
  - destruct Hdeleted as (res_id & _ & _ & ->).
    rewrite Forall_forall in Hgrid |- *.
    intros x [_ Hx]%list_elem_of_filter. by apply Hgrid.
Qed.

Lemma run_on_grid (w : World) (cs : list Call) :
  Forall on_grid (reservations w) → Forall on_grid (reservations (run w cs)).
Proof.
  revert w. induction cs as [|c cs IH]; intros w Hgrid; simpl; [done|].
  by apply IH, step_on_grid.
Qed.

(** X9: Only seats on the grid are ever stored, so from a store of on-grid
    seats the price lookups of the dashboard never leave the matrix: after
    any sequence of requests a dashboard request with a session is
    rendered, with the sum of the column prices as total. *)
Theorem seats_stay_on_grid (w : World) (cs : list Call) :
  Forall on_grid (reservations w) →
  Forall on_grid (reservations (run w cs))
  ∧ (logged_in (run w cs) →
     ∃ seating rows,
       admin_dashboard (run w cs)
       = (Return (render_admin seating
                    (sum_Z ((λ x, spec_price (seatColumn x))
                              <$> reservations (run w cs))) rows),
          run w cs)).
Proof.
  intros Hgrid. pose proof (run_on_grid w cs Hgrid) as Hrun.
  split; [done|]. intros Hin.
  rewrite admin_dashboard_logged_in by done.
  rewrite all_prices_in_range by done. by eexists _, _.
Qed.

(** ** The admin session *)

Lemma step_session (w : World) (c : Call) :
  session (step w c) = session w
  ∨ (∃ req a,
       c = call_admin_login req ∧ method req = "POST" ∧ a ∈ admins w
       ∧ credentials_match req a
       ∧ session (step w c) = <["admin_username" := username a]> (session w))
  ∨ (c = call_admin_logout
     ∧ session (step w c) = delete "admin_username" (session w)).
Proof.
  unfold step. destruct c as [|env req|req| |res_id|]; simpl.
  - by left.
  - left. destruct (reserve_seat_cases env req w) as [[_ ->]|Hbooked];
      [done|].
    by destruct Hbooked as (r & k & _ & _ & _ & _ & ->).
  - destruct (admin_login_session req w) as [Hsame|Hset]; [by left|].
    destruct Hset as (a & Hpost & Ha & Hmatch & _ & Hsession).
    right. left. by exists req, a.
  - left. destruct (decide (logged_in w)) as [Hin|Hno].
    + by rewrite admin_dashboard_logged_in.
    + by rewrite admin_dashboard_anonymous.
  - left. destruct (decide (logged_in w)) as [Hin|Hno].
    + by rewrite delete_reservation_world.
    + by rewrite delete_reservation_anonymous.
  - right. by right.
Qed.

Lemma step_admins (w : World) (c : Call) : admins (step w c) = admins w.
Proof. apply step_cases. Qed.

Lemma delete_keeps_anonymous (w : World) :
  ¬ "admin_username" ∈ dom (delete "admin_username" (session w)).
Proof.
  rewrite dom_delete_L, elem_of_difference, elem_of_singleton.
  by intros [_ Hne].
Qed.

(** X10: The session key has one source: a world without it gets it only by a
    POST to the login view whose trimmed username and password are those
    of a stored admin, and the key then holds that admin's username.  So
    after any sequence of requests a session means that such a login was
    among them. *)
Theorem session_only_by_login (w : World) (cs : list Call) :
  ¬ logged_in w → logged_in (run w cs) →
  Exists (λ c, ∃ req a,
            c = call_admin_login req ∧ method req = "POST"
            ∧ a ∈ admins w ∧ credentials_match req a) cs.
Proof.
  revert w. induction cs as [|c cs IH]; intros w Hno Hin; simpl in *.
  - done.
  - destruct (decide (logged_in (step w c))) as [Hstep|Hstep].
    + apply Exists_cons_hd.
      destruct (step_session w c) as [Hsame | [Hlogin | [_ Hlogout]]].
      * unfold logged_in in *. by rewrite Hsame in Hstep.
      * destruct Hlogin as (req & a & -> & Hpost & Ha & Hmatch & _).
        by exists req, a.
      * exfalso. unfold logged_in in Hstep. rewrite Hlogout in Hstep.
        by apply (delete_keeps_anonymous w).
    + apply Exists_cons_tl.
      rewrite <- (step_admins w c).
      eapply Exists_impl; [by apply IH|]. done.
Qed.

(** X11: The ways a login does not succeed: a request that is not a POST shows
    the empty form, a POST without a field ends in the bad-request error of
    that field, credentials that are those of no stored admin show the
    "invalid username or password" error; in all of them the world, the
    session included, is as before. *)
Theorem login_failure_paths (req : Request) (w : World) :
  (method req ≠ "POST" →
   admin_login req w = (Return (render_login None), w))
  ∧ (method req = "POST" → form req !! "username" = None →
     admin_login req w = (Raise (BadRequestKeyError "username"), w))
  ∧ (method req = "POST" → is_Some (form req !! "username") →
     form req !! "password" = None →
     admin_login req w = (Raise (BadRequestKeyError "password"), w))
  ∧ (∀ u p,
       method req = "POST" →
       form req !! "username" = Some u → form req !! "password" = Some p →
       (∀ a, a ∈ admins w →
             ¬ (username a = Py.strip u ∧ password a = Py.strip p)) →
       admin_login req w = (Return (render_login (Some msg_bad_login)), w)).
Proof.
  unfold admin_login. flask_unfold. unfold form_getitem. split_and!.
  - intros Hget. by rewrite bool_decide_eq_false_2.
  - intros Hpost Hu. rewrite bool_decide_eq_true_2 by done. by rewrite Hu.
  - intros Hpost [u Hu] Hp. rewrite bool_decide_eq_true_2 by done.
    by rewrite Hu, Hp.
  - intros u p Hpost Hu Hp Hnone. rewrite bool_decide_eq_true_2 by done.
    rewrite Hu, Hp. simpl.
    destruct (head (filter _ (admins w))) as [a|] eqn:Hfirst; [|done].
    apply head_Some_elem_of, list_elem_of_filter in Hfirst as [Hmatch Ha].
    by destruct (Hnone a Ha).
Qed.

(** X12: Logging out drops the session key and redirects to the main menu,
    whether or not there was a session; the tables are untouched, a second
    logout changes nothing more, and afterwards the dashboard and the
    delete view answer with the redirect to the login page. *)
Theorem logout_clears_session (w : World) :
  admin_logout w
  = (Return (redirect "index"),
     mkWorld (reservations w) (admins w)
       (delete "admin_username" (session w)))
  ∧ ¬ logged_in (admin_logout w).2
  ∧ (¬ logged_in w → (admin_logout w).2 = w)
  ∧ (admin_logout (admin_logout w).2).2 = (admin_logout w).2
  ∧ admin_dashboard (admin_logout w).2
    = (Return (redirect "admin_login"), (admin_logout w).2)
  ∧ (∀ res_id,
       delete_reservation res_id (admin_logout w).2
       = (Return (redirect "admin_login"), (admin_logout w).2)).
Proof.
  assert (¬ logged_in (admin_logout w).2) as Hout.
  { unfold admin_logout. flask_unfold. simpl.
    apply delete_keeps_anonymous. }
  split_and!.
  - reflexivity.
  - done.
  - intros Hno. unfold admin_logout. flask_unfold. simpl.
    rewrite delete_id; [by destruct w|]. by apply not_elem_of_dom.
  - unfold admin_logout. flask_unfold. simpl. by rewrite delete_delete_eq.
  - by apply admin_dashboard_anonymous.
  - intros res_id. by apply delete_reservation_anonymous.
Qed.

(** X13: Without the session key no request removes a row: the table after the
    request starts with the table before it, and the delete view answers
    with the redirect to the login page and leaves the world alone. *)
Theorem anonymous_cannot_delete (w : World) (c : Call) :
  ¬ logged_in w →
  reservations w `prefix_of` reservations (step w c)
  ∧ (∀ res_id,
       delete_reservation res_id w = (Return (redirect "admin_login"), w)).
Proof.
  intros Hno. split; [|intros; by apply delete_reservation_anonymous].
  destruct (step_cases w c) as [_ [-> | [Hbooked | Hdeleted]]]; [done| |].
  - destruct Hbooked as (env & req & r & k & _ & _ & _ & _ & _ & ->).
    by eexists.
  - by destruct Hdeleted as (res_id & _ & Hin & _).
Qed.

(** ** More on the dashboard and the total *)

Lemma price_outside (row col : Z) :
  (row < -11 ∨ 12 < row ∨ col < -3 ∨ 4 < col)%Z →
  calculate_price_for_seat row col = Raise IndexError.
Proof.
  intros Hout. unfold calculate_price_for_seat.
  destruct (decide (row < -11 ∨ 12 < row)%Z) as [Hrow|Hrow].
  - rewrite getitem_out_of_range; [done|]. simpl. lia.
  - rewrite cost_matrix_getitem by lia. simpl.
    apply getitem_out_of_range. simpl. lia.
Qed.

Lemma price_inside (row col : Z) :
  (-11 ≤ row ≤ 12)%Z → (-3 ≤ col ≤ 4)%Z →
  ∃ p, calculate_price_for_seat row col = Return p.
Proof.
  intros Hrow Hcol. unfold calculate_price_for_seat.
  rewrite cost_matrix_getitem by lia. simpl.
  assert (col = -3 ∨ col = -2 ∨ col = -1 ∨ col = 0
          ∨ col = 1 ∨ col = 2 ∨ col = 3 ∨ col = 4)%Z as Hcase by lia.
  destruct Hcase as [-> | [-> | [-> | [-> | [-> | [-> | [-> | ->]]]]]]];
    by eexists.
Qed.

Lemma all_prices_index_error (rs : list Reservation) :
  Exists (λ x, ¬ price_index_ok x) rs → all_prices rs = Raise IndexError.
Proof.
  induction rs as [|x rs IH]; [by intros ?%Exists_nil|].
  intros Hbad. simpl. unfold price_of.
  destruct (decide (price_index_ok x)) as [[Hrow Hcol]|Hx].
  - destruct (price_inside _ _ Hrow Hcol) as [p ->]. simpl.
    apply Exists_cons in Hbad as [Hbad|Hbad].
    + by destruct Hbad.
    + by rewrite (IH Hbad).
  - rewrite price_outside; [done|]. unfold price_index_ok in Hx. lia.
Qed.

Lemma all_prices_defined (rs : list Reservation) :
  Forall price_index_ok rs → ∃ ps, all_prices rs = Return ps.
Proof.
  induction 1 as [|x rs [Hrow Hcol] _ [ps IH]]; [by eexists|].
  simpl. unfold price_of.
  destruct (price_inside _ _ Hrow Hcol) as [p ->]. simpl.
  rewrite IH. by eexists.
Qed.

(** X14: A stored row that the price lookup cannot index (row outside [-11,12]
    or column outside [-3,4], which no booking creates) breaks the total and
    with it the dashboard: the view ends in the unhandled [IndexError],
    although the chart builder skips such a row.  Without such rows both
    are defined. *)
Theorem dashboard_index_error (w : World) :
  logged_in w →
  (Exists (λ x, ¬ price_index_ok x) (reservations w) →
   calculate_total_sales (reservations w) = Raise IndexError
   ∧ admin_dashboard w = (Raise IndexError, w)
   ∧ status_code (admin_dashboard w).1 = 500)
  ∧ (Forall price_index_ok (reservations w) →
     ∃ seating total rows,
       calculate_total_sales (reservations w) = Return total
       ∧ admin_dashboard w
         = (Return (render_admin seating total rows), w)).
Proof.
  intros Hin. rewrite admin_dashboard_logged_in by done.
  unfold calculate_total_sales. rewrite total_sales_loop_spec. split.
  - intros Hbad. by rewrite (all_prices_index_error _ Hbad).
  - intros Hok. destruct (all_prices_defined _ Hok) as [ps ->].
    by eexists _, _, _.
Qed.

Lemma zip_fmap_self {A B} (f : A → B) (l : list A) :
  zip l (f <$> l) = (λ x, (x, f x)) <$> l.
Proof. induction l as [|x l IH]; simpl; [done|]. f_equal. apply IH. Qed.

(** X15: The dashboard is a read-only view: it never changes the world.  With
    a session and a store of on-grid seats it lists every row of the table,
    in table order, each beside the price of its column, next to the chart
    and the total. *)
Theorem dashboard_lists_rows (w : World) :
  logged_in w → Forall on_grid (reservations w) →
  admin_dashboard w
  = (Return (render_admin (build_seating_chart (reservations w))
               (sum_Z ((λ x, spec_price (seatColumn x)) <$> reservations w))
               ((λ x, (x, spec_price (seatColumn x))) <$> reservations w)),
     w)
  ∧ (∀ w0, (admin_dashboard w0).2 = w0).
Proof.
  intros Hin Hgrid. split.
  - rewrite admin_dashboard_logged_in by done.
    rewrite all_prices_in_range by done.
    by rewrite zip_fmap_self.
  - intros w0. destruct (decide (logged_in w0)) as [Hin0|Hno].
    + by rewrite admin_dashboard_logged_in.
    + by rewrite admin_dashboard_anonymous.
Qed.

Lemma total_sales_loop_app (rs rs' : list Reservation) (total : Z) :
  total_sales_loop (rs ++ rs') total
  = t ← total_sales_loop rs total; total_sales_loop rs' t.
Proof.
  revert total. induction rs as [|x rs IH]; intros total; simpl; [done|].
  destruct (calculate_price_for_seat _ _) as [p|e]; simpl; [|done].
  apply IH.
Qed.

(** X16: A confirmed booking of seat (r, c) raises the total sales by the price
    of column c. *)
Theorem booking_raises_total (env : Env) (req : Request) (w : World)
    (r c total : Z) :
  seat_ok r c → booking_attempt req r c →
  count_seat (reservations w) r c = 0 →
  generate_reservation_code (rng env) 8 ∉ tickets w →
  calculate_total_sales (reservations w) = Return total →
  calculate_total_sales (reservations (reserve_seat env req w).2)
  = Return (total + spec_price c)%Z.
Proof.
  intros Hok Hattempt Hfree Hnew Htotal.
  apply count_seat_zero in Hfree.
  pose proof (proj2 (filter_nil_Exists _ _) Hfree) as Hnil.
  rewrite (reserve_seat_attempt env req w r c Hattempt Hok).
  rewrite Hnil. simpl. rewrite bool_decide_eq_false_2 by done. simpl.
  unfold calculate_total_sales in *. rewrite total_sales_loop_app, Htotal.
  simpl. by rewrite (price_in_range r c Hok).
Qed.

(** ** Booking and deleting together *)

Lemma total_is_sum (rs : list Reservation) (total : Z) :
  calculate_total_sales rs = Return total →
  ∃ ps, all_prices rs = Return ps ∧ total = sum_Z ps.
Proof.
  unfold calculate_total_sales. rewrite total_sales_loop_spec.
  destruct (all_prices rs) as [ps|e]; simpl; [|done].
  intros [= <-]. by exists ps.
Qed.

Lemma all_prices_without (rs : list Reservation) (x : Reservation)
    (ps : list Z) :
  NoDup (id <$> rs) → x ∈ rs → all_prices rs = Return ps →
  ∃ p ps',
    price_of x = Return p
    ∧ all_prices (filter (λ y, id y ≠ id x) rs) = Return ps'
    ∧ sum_Z ps = (p + sum_Z ps')%Z.
Proof.
  revert ps. induction rs as [|y rs IH]; intros ps Hdup Hx Hps.
  { by apply elem_of_nil in Hx. }
  simpl in Hdup, Hps. apply NoDup_cons in Hdup as [Hy Hdup].
  destruct (price_of y) as [py|e] eqn:Hpy; simpl in Hps; [|done].
  destruct (all_prices rs) as [pys|e] eqn:Hpys; simpl in Hps; [|done].
  injection Hps as <-.
  destruct (decide (id y = id x)) as [Heq|Hne].
  - assert (x = y) as ->.
    { apply elem_of_cons in Hx as [Hx|Hx]; [done|]. exfalso. apply Hy.
      rewrite Heq. by apply list_elem_of_fmap_2. }
    rewrite filter_cons_False by (intros Hne; by apply Hne).
    rewrite filter_all; cycle 1.
    { apply Forall_forall. intros z Hz Hid. apply Hy.
      rewrite <- Hid. by apply list_elem_of_fmap_2. }
    by exists py, pys.
  - apply elem_of_cons in Hx as [-> | Hx]; [done|].
    destruct (IH pys Hdup Hx eq_refl) as (p & ps' & Hp & Hps' & Hsum).
    rewrite filter_cons_True by done. simpl. rewrite Hpy, Hps'. simpl.
    exists p, (py :: ps'). split_and!; try done. simpl. lia.
Qed.

(** X17: Deleting a stored reservation under an admin session lowers the total
    sales by the price of that reservation. *)
Theorem delete_lowers_total (w : World) (x : Reservation) (total : Z) :
  logged_in w → NoDup (id <$> reservations w) → x ∈ reservations w →
  calculate_total_sales (reservations w) = Return total →
  ∃ p,
    calculate_price_for_seat (seatRow x) (seatColumn x) = Return p
    ∧ calculate_total_sales
        (reservations (delete_reservation (id x) w).2)
      = Return (total - p)%Z.
Proof.
  intros Hin Hdup Hx Htotal.
  apply total_is_sum in Htotal as (ps & Hps & ->).
  destruct (all_prices_without _ x ps Hdup Hx Hps)
    as (p & ps' & Hp & Hps' & Hsum).
  exists p. split; [done|].
  rewrite delete_reservation_world by done. simpl.
  unfold calculate_total_sales. rewrite total_sales_loop_spec, Hps'.
  simpl. f_equal. lia.
Qed.


Lemma seat_unique_same_seat (rs : list Reservation) (x y : Reservation) :
  seat_unique rs → x ∈ rs → y ∈ rs →
  seatRow x = seatRow y → seatColumn x = seatColumn y → x = y.
Proof.
  unfold seat_unique. induction rs as [|z rs IH]; simpl.
  { by intros _ ?%elem_of_nil. }
  rewrite NoDup_cons. intros [Hz Hdup] Hx Hy Hrow Hcol.
  apply elem_of_cons in Hx as [-> | Hx];
    apply elem_of_cons in Hy as [-> | Hy].
  - done.
  - exfalso. apply Hz. rewrite Hrow, Hcol.
    by apply (list_elem_of_fmap_2 (λ x, (seatRow x, seatColumn x))).
  - exfalso. apply Hz. rewrite <- Hrow, <- Hcol.
    by apply (list_elem_of_fmap_2 (λ x, (seatRow x, seatColumn x))).
  - by apply IH.
Qed.

(** X19: Deleting the reservation of a seat frees the seat: no row holds it any
    more, the chart shows it open again, and the next booking attempt for
    it is confirmed as soon as its code is new. *)
Theorem delete_frees_seat (env : Env) (req : Request) (w : World)
    (x : Reservation) (r c : Z) :
  logged_in w → seat_unique (reservations w) → x ∈ reservations w →
  at_seat r c x → seat_ok r c → booking_attempt req r c →
  count_seat (reservations (delete_reservation (id x) w).2) r c = 0
  ∧ chart_cell
      (build_seating_chart (reservations (delete_reservation (id x) w).2))
      (Z.to_nat r) (Z.to_nat c) = Some "O"
  ∧ (generate_reservation_code (rng env) 8
     ∉ tickets (delete_reservation (id x) w).2 →
     is_success (reserve_seat env req (delete_reservation (id x) w).2).1).
Proof.
  intros Hin Hdup Hx [Hr Hc] Hok Hattempt.
  rewrite delete_reservation_world by done. simpl.
  assert (¬ Exists (at_seat r c)
              (filter (λ y, id y ≠ id x) (reservations w))) as Hfree.
  { rewrite Exists_exists.
    intros (y & [Hne Hy]%list_elem_of_filter & Hr' & Hc').
    apply Hne. f_equal. apply (seat_unique_same_seat (reservations w));
      try done; congruence. }
  split_and!.
  - by apply count_seat_zero.
  - rewrite chart_cell_build by done. by rewrite decide_False.
  - intros Hnew.
    rewrite (reserve_seat_attempt env req _ r c Hattempt Hok). simpl.
    rewrite (proj2 (filter_nil_Exists _ _) Hfree). simpl.
    rewrite bool_decide_eq_false_2 by done. by eexists _, _.
Qed.

(** ** Codes of any length *)

(** X20: Whatever length is asked for, the generated code has that many
    characters, all of them upper-case letters or digits. *)
Theorem reservation_code_any_length (rng : nat → nat) (n : nat) :
  String.length (generate_reservation_code rng n) = n
  ∧ ∀ ch, ch ∈ list_ascii_of_string (generate_reservation_code rng n) →
          is_upper_or_digit ch = true.
Proof.
  assert (alphabet ≠ []) as Hne by discriminate.
  unfold generate_reservation_code. fold alphabet. split.
  - rewrite length_string_of_list_ascii. by apply random_choices_length.
  - intros ch. rewrite list_ascii_of_string_of_list_ascii. intros Hch.
    apply random_choices_elem in Hch; [|done].
    by apply alphabet_upper_or_digit.
Qed.

End properties.

(** ** The theorems at sample data, on the CPython runtime *)

#[global] Existing Instance Py.cpython.

Lemma sample_booking_attempt :
  booking_attempt (sample_request "1" "1") 1 1.
Proof.
  unfold booking_attempt. split_and!.
  - reflexivity.
  - eexists. vm_compute. reflexivity.
  - eexists. vm_compute. reflexivity.
  - vm_compute. reflexivity.
Defined.

Lemma sample_logged_in : logged_in admin_store ∧ logged_in booked_store.
Proof. split; apply (bool_decide_unpack _); vm_compute; exact I. Defined.

Lemma booking_inserts_one_row_witness :
  is_success (reserve_seat sample_env (sample_request "1" "1") empty_store).1.
Proof.
  apply (booking_inserts_one_row sample_env (sample_request "1" "1")
           empty_store 1 1).
  - unfold seat_ok. lia.
  - exact sample_booking_attempt.
  - reflexivity.
  - unfold tickets. simpl. apply not_elem_of_nil.
Defined.

(** C3 as stated fails: a submitted form without any field has no seat
    row, yet the view ends in the [BadRequestKeyError] of the missing
    [first_name], not in a validation message on the booking page. *)
Lemma bad_seat_counterexample :
  method empty_request = "POST"
  ∧ bad_seat_input empty_request
  ∧ reserve_seat sample_env empty_request empty_store
    = (Raise (BadRequestKeyError "first_name"), empty_store)
  ∧ ¬ is_validation_error
        (reserve_seat sample_env empty_request empty_store).1.
Proof.
  split_and!.
  - reflexivity.
  - exact I.
  - vm_compute. reflexivity.
  - intros (seating & [H|H]); vm_compute in H; discriminate H.
Qed.

Lemma bad_seat_rejected_witness :
  (reserve_seat sample_env (sample_request "13" "0") empty_store).2
  = empty_store
  ∧ is_validation_error
      (reserve_seat sample_env (sample_request "13" "0") empty_store).1.
Proof.
  assert (bad_seat_input (sample_request "13" "0")) as Hbad.
  { change (¬ seat_ok 13 0). unfold seat_ok. lia. }
  destruct (bad_seat_rejected sample_env (sample_request "13" "0")
              empty_store eq_refl Hbad) as (Hsame & _ & Hmsg).
  split; [exact Hsame|].
  apply Hmsg; eexists; vm_compute; reflexivity.
Defined.

Lemma second_booking_conflicts_witness :
  count_seat (reservations booked_store) 1 1 = 1.
Proof.
  apply (second_booking_conflicts sample_env (sample_request "1" "1")
           booked_store 1 1).
  - unfold seat_ok. lia.
  - exact sample_booking_attempt.
  - apply (bool_decide_unpack _). vm_compute. exact I.
  - apply Exists_cons_hd. split; reflexivity.
Defined.

Lemma dashboard_total_sales_witness :
  ∃ seating rows,
    admin_dashboard booked_store
    = (Return (render_admin seating 150 rows), booked_store).
Proof.
  apply (proj1 (proj2 (dashboard_total_sales booked_store
                         (proj2 sample_logged_in))) [100; 50]%Z).
  vm_compute. reflexivity.
Defined.

Lemma delete_removes_or_noop_witness :
  (delete_reservation 7 admin_store).1 = Return (redirect "admin_dashboard")
  ∧ (delete_reservation 7 admin_store).2 = admin_store.
Proof.
  assert (sqlite_integer 7) as Hrange by (unfold sqlite_integer; lia).
  destruct (delete_removes_or_noop 7 admin_store (proj1 sample_logged_in)
              Hrange) as (Hredirect & _ & _ & _ & Hnoop).
  split; [exact Hredirect|]. apply Hnoop.
  intros r Hr. simpl in Hr. by apply elem_of_nil in Hr.
Defined.

(** C6 as stated fails: the URL converter lets the identifier 2^63
    through, SQLite cannot bind it, and with an admin session the view ends
    in the unhandled [OverflowError] instead of the redirect. *)
Lemma delete_huge_id_counterexample :
  logged_in admin_store
  ∧ delete_reservation huge_id admin_store = (Raise OverflowError, admin_store)
  ∧ (delete_reservation huge_id admin_store).1
    ≠ Return (redirect "admin_dashboard")
  ∧ status_code (delete_reservation huge_id admin_store).1 = 500.
Proof.
  split_and!.
  - apply sample_logged_in.
  - vm_compute. reflexivity.
  - vm_compute. discriminate.
  - vm_compute. reflexivity.
Qed.

Lemma delete_only_that_reservation_witness :
  length (reservations (delete_reservation 1 booked_store).2) + 1 = 2.
Proof.
  apply (delete_only_that_reservation 1 booked_store
           (proj2 sample_logged_in)).
  - eexists. split; [apply list_elem_of_here|reflexivity].
  - apply (bool_decide_unpack _). vm_compute. exact I.
Defined.

Lemma dashboard_needs_session_witness :
  logged_in (admin_login login_request empty_store).2.
Proof.
  apply (dashboard_needs_session empty_store login_request "a" " p "
           (mkAdmin "a" "p")).
  - reflexivity.
  - vm_compute. reflexivity.
  - vm_compute. reflexivity.
  - apply list_elem_of_here.
  - vm_compute. reflexivity.
  - vm_compute. reflexivity.
Defined.

Example chart_of_booked_store :
  build_seating_chart (reservations booked_store)
  = "Row  1: X O X O
Row  2: O O O O
Row  3: O O O O
Row  4: O O O O
Row  5: O O O O
Row  6: O O O O
Row  7: O O O O
Row  8: O O O O
Row  9: O O O O
Row 10: O O O O
Row 11: O O O O
Row 12: O O O O".
Proof. vm_compute. reflexivity. Qed.

Example first_booking :
  reserve_seat sample_env (sample_request "1" "1") empty_store
  = (Return (render_reserve None
               (Some ("Reservation confirmed for Ann Lee! Code: AHOV29GN, "
                      +:+ "Seat: Row 1, Column 1, Price: $100.00"))
               (build_seating_chart [mkReservation 1 "Ann Lee" 1 1
                                       "AHOV29GN" 0])),
     mkWorld [mkReservation 1 "Ann Lee" 1 1 "AHOV29GN" 0]
       [mkAdmin "a" "p"] ∅).
Proof. vm_compute. reflexivity. Qed.

Example code_collision :
  reserve_seat sample_env (sample_request "2" "2")
    (reserve_seat sample_env (sample_request "1" "1") empty_store).2
  = (Raise IntegrityError,
     (reserve_seat sample_env (sample_request "1" "1") empty_store).2).
Proof. vm_compute. reflexivity. Qed.

Example int_accepts :
  Py.int " +1_2 " = Return 12%Z ∧ Py.int "-007" = Return (-7)%Z
  ∧ Py.int "1__2" = Raise ValueError ∧ Py.int EmptyString = Raise ValueError
  ∧ Py.int "4.0" = Raise ValueError.
Proof. repeat split; reflexivity. Qed.

Example price_wraps :
  calculate_price_for_seat 0 0 = Return 100%Z
  ∧ calculate_price_for_seat (-11) (-1) = Return 50%Z
  ∧ calculate_price_for_seat (-12) 1 = Raise IndexError
  ∧ calculate_price_for_seat 1 5 = Raise IndexError.
Proof. repeat split; reflexivity. Qed.

Lemma chart_determined_by_seats_witness :
  build_seating_chart (reservations booked_store)
  = build_seating_chart (rev (reservations booked_store)
                         ++ reservations booked_store).
Proof.
  apply chart_determined_by_seats. intros r c _. simpl.
  rewrite !Exists_cons, !Exists_nil. tauto.
Defined.


Lemma viewing_the_form_books_nothing_witness :
  (reserve_seat sample_env get_request booked_store).2 = booked_store.
Proof.
  rewrite (viewing_the_form_books_nothing sample_env get_request booked_store).
  - reflexivity.
  - discriminate.
Defined.

Lemma code_collision_aborts_witness :
  reserve_seat sample_env (sample_request "2" "2") booked_store
  = (Raise IntegrityError, booked_store).
Proof.
  apply (code_collision_aborts sample_env (sample_request "2" "2")
           booked_store 2 2).
  - unfold seat_ok. lia.
  - unfold booking_attempt. split_and!.
    + reflexivity.
    + eexists. vm_compute. reflexivity.
    + eexists. vm_compute. reflexivity.
    + vm_compute. reflexivity.
  - reflexivity.
  - apply (bool_decide_unpack _). vm_compute. exact I.
Defined.


Lemma store_keys_stay_unique_witness :
  keys_unique
    (run empty_store
       [call_reserve_seat sample_env (sample_request "1" "1");
        call_reserve_seat other_env (sample_request "1" "3");
        call_reserve_seat sample_env (sample_request "2" "2")]).
Proof.
  apply store_keys_stay_unique.
  split; simpl; apply NoDup_nil_2.
Defined.

Lemma seats_stay_on_grid_witness :
  Forall on_grid
    (reservations
       (run booked_store
          [call_reserve_seat sample_env (sample_request "13" "1");
           call_delete_reservation 1;
           call_reserve_seat other_env (sample_request "12" "4")])).
Proof.
  apply seats_stay_on_grid.
  repeat constructor; unfold on_grid, seat_ok; simpl; lia.
Defined.

Lemma session_only_by_login_witness :
  Exists (λ c, ∃ req a,
            c = call_admin_login req ∧ method req = "POST"
            ∧ a ∈ admins empty_store ∧ credentials_match req a)
    [call_admin_dashboard; call_admin_login login_request].
Proof.
  apply session_only_by_login.
  - unfold logged_in. simpl. set_solver.
  - apply (bool_decide_unpack _). vm_compute. exact I.
Defined.

Lemma login_failure_paths_witness :
  admin_login wrong_login_request empty_store
  = (Return (render_login (Some msg_bad_login)), empty_store).
Proof.
  apply (proj2 (proj2 (proj2
           (login_failure_paths wrong_login_request empty_store))) "a" "q").
  - reflexivity.
  - vm_compute. reflexivity.
  - vm_compute. reflexivity.
  - intros a Ha [_ Hpass]. simpl in Ha.
    apply list_elem_of_singleton in Ha. subst a. vm_compute in Hpass.
    discriminate Hpass.
Defined.

Lemma anonymous_cannot_delete_witness :
  delete_reservation 1
    (mkWorld (reservations booked_store) (admins booked_store) ∅)
  = (Return (redirect "admin_login"),
     mkWorld (reservations booked_store) (admins booked_store) ∅).
Proof.
  apply (anonymous_cannot_delete _ call_index).
  unfold logged_in. simpl. set_solver.
Defined.

Lemma dashboard_index_error_witness :
  admin_dashboard off_grid_store = (Raise IndexError, off_grid_store).
Proof.
  apply (dashboard_index_error off_grid_store).
  - apply (bool_decide_unpack _). vm_compute. exact I.
  - apply Exists_cons_hd. unfold price_index_ok. simpl. lia.
Defined.

Lemma dashboard_lists_rows_witness :
  ∃ seating,
    admin_dashboard booked_store
    = (Return (render_admin seating 150
                 [(mkReservation 1 "Ann Lee" 1 1 "AHOV29GN" 0, 100%Z);
                  (mkReservation 2 "Bob Ray" 1 3 "ABCDEFGH" 0, 50%Z)]),
       booked_store).
Proof.
  eexists.
  apply (dashboard_lists_rows booked_store).
  - apply (bool_decide_unpack _). vm_compute. exact I.
  - repeat constructor; unfold on_grid, seat_ok; simpl; lia.
Defined.

Lemma booking_raises_total_witness :
  calculate_total_sales
    (reservations
       (reserve_seat sample_env (sample_request "1" "1") empty_store).2)
  = Return 100%Z.
Proof.
  apply (booking_raises_total sample_env (sample_request "1" "1")
           empty_store 1 1 0).
  - unfold seat_ok. lia.
  - exact sample_booking_attempt.
  - reflexivity.
  - unfold tickets. simpl. apply not_elem_of_nil.
  - reflexivity.
Defined.

Lemma delete_lowers_total_witness :
  ∃ p,
    calculate_price_for_seat 1 3 = Return p
    ∧ calculate_total_sales
        (reservations (delete_reservation 2 booked_store).2)
      = Return (150 - p)%Z.
Proof.
  apply (delete_lowers_total booked_store
           (mkReservation 2 "Bob Ray" 1 3 "ABCDEFGH" 0) 150).
  - apply (bool_decide_unpack _). vm_compute. exact I.
  - apply (bool_decide_unpack _). vm_compute. exact I.
  - apply list_elem_of_further, list_elem_of_here.
  - reflexivity.
Defined.


Lemma delete_frees_seat_witness :
  count_seat (reservations (delete_reservation 1 booked_store).2) 1 1 = 0.
Proof.
  apply (delete_frees_seat sample_env (sample_request "1" "1") booked_store
           (mkReservation 1 "Ann Lee" 1 1 "AHOV29GN" 0) 1 1).
  - apply (bool_decide_unpack _). vm_compute. exact I.
  - apply (bool_decide_unpack _). vm_compute. exact I.
  - apply list_elem_of_here.
  - split; reflexivity.
  - unfold seat_ok. lia.
  - exact sample_booking_attempt.
Defined.

(** The CPython runtime on text that is not plain ASCII digits. *)

Example int_whitespace :
  Py.int ("1" +:+ fs) = Raise ValueError
  ∧ Py.int (fs +:+ "1") = Raise ValueError
  ∧ Py.int " 1　" = Return 1%Z
  ∧ Py.int "- 1" = Raise ValueError
  ∧ Py.int "1 _2" = Raise ValueError
  ∧ Py.int "1 2" = Raise ValueError.
Proof. repeat split; vm_compute; reflexivity. Qed.

Example int_decimal_scripts :
  Py.int "１２" = Return 12%Z ∧ Py.int "٣" = Return 3%Z
  ∧ Py.int "-٣_１0" = Return (-310)%Z ∧ Py.int "Ⅷ" = Raise ValueError
  ∧ Py.int "²" = Raise ValueError.
Proof. repeat split; vm_compute; reflexivity. Qed.

Example int_digit_limit :
  Py.int (string_of_list_ascii (replicate 4300 "0"%char)) = Return 0%Z
  ∧ Py.int (string_of_list_ascii (replicate 4301 "0"%char))
    = Raise ValueError.
Proof. split; vm_compute; reflexivity. Qed.

Example strip_whitespace :
  Py.strip " Ann　" = "Ann" ∧ Py.strip (fs +:+ " a b " +:+ fs) = "a b"
  ∧ Py.strip "​a" = "​a" ∧ Py.strip "é " = "é".
Proof. repeat split; vm_compute; reflexivity. Qed.

Example wide_booking :
  reserve_seat sample_env wide_request empty_store
  = (Return (render_reserve None
               (Some ("Reservation confirmed for Ann Lee! Code: AHOV29GN, "
                      +:+ "Seat: Row 12, Column 4, Price: $100.00"))
               (build_seating_chart [mkReservation 1 "Ann Lee" 12 4
                                       "AHOV29GN" 0])),
     mkWorld [mkReservation 1 "Ann Lee" 12 4 "AHOV29GN" 0]
       [mkAdmin "a" "p"] ∅).
Proof. vm_compute. reflexivity. Qed.
